(** * dataprep.eda.basic.viz_uni: univariate chart rendering

    A shallow embedding of [src/dataprep/eda/basic/viz_uni.py] (class
    [UniViz]) and the properties its specification states about it.

    What is modelled.  Each [*_viz] method derives a small table from a
    pre-computed summary, hands it to Bokeh, sets one flag on [self] and
    returns the figure.  The embedding keeps

    - the derived table of every method (the columns the method computes),
    - the parts of the figure that depend on it (title, glyph coordinates,
      axis caption, tickers, legend presence),
    - the exceptions Python, pandas and numpy raise on the way,
    - the six flags of [UniViz], threaded as explicit state.

    Purely cosmetic settings (fonts, colours, grid lines, wedge angles,
    which need [math.pi]) are left out.  Dicts are given as their items in
    insertion order, which is the order pandas and [sorted] see.

    Numbers.  Counts are Python/numpy integers ([Z]).  Everything the
    methods derive from them is a float64; the embedding is written once
    over an interface [Float64] and instantiated twice: by [xfloat], exact
    rationals extended with the IEEE special values (no rounding error, used
    for the general laws), and by [binary64], the kernel's IEEE-754 doubles
    (used to evaluate the specification's worked examples bit for bit).

    Layout.  The embedding comes first (runtime, sequences, floats, the
    class and its six methods, sessions of calls), then the facts, one part
    per chart type, each ending in the properties of the specification. *)

From Stdlib Require Import ZArith QArith Qreduction List String Ascii Bool Lia.
From Stdlib Require Import Permutation Sorted.
From Stdlib Require Import PrimFloat Uint63.
Import ListNotations.

Set Implicit Arguments.
Local Open Scope Z_scope.

(* ================================================================== *)
(** * Python runtime: exceptions and the result of a call *)
(* ================================================================== *)

(** The exceptions the modelled code can raise. *)
Inductive exn : Type :=
| IndexError                 (* [missing[0]] on an empty list *)
| KeyError (key : string)    (* a dict or DataFrame column that is absent *)
| ZeroDivisionError          (* Python [int / int] with a zero divisor *)
| ValueError                 (* numpy/pandas shape errors, [np.min] of nothing *)
| TypeError                  (* [len] of a float *)
| LibraryError.              (* anything raised inside scipy/numpy routines
                                that are external to this module *)

Inductive result (A : Type) : Type :=
| Ok (a : A)
| Raise (e : exn).

Arguments Ok {A} a.
Arguments Raise {A} e.

Definition bind {A B : Type} (m : result A) (k : A -> result B) : result B :=
  match m with
  | Ok a => k a
  | Raise e => Raise e
  end.

Declare Scope py_scope.
Delimit Scope py_scope with py.
Notation "x <- m ;; k" := (bind m (fun x => k))
  (at level 100, m at next level, right associativity) : py_scope.

Definition is_ok {A : Type} (r : result A) : bool :=
  match r with Ok _ => true | Raise _ => false end.

(* ================================================================== *)
(** * Python sequences: slicing, subscripting, sorting *)
(* ================================================================== *)

Section Sequences.
Variable A : Type.

(** A slice bound as CPython clamps it: a negative bound counts from the
    end, and the result is clipped to [0 .. len]. *)
Definition slice_bound (len : nat) (i : Z) : nat :=
  if i <? 0 then Z.to_nat (Z.max 0 (Z.of_nat len + i))
  else Z.to_nat (Z.min i (Z.of_nat len)).

(** [l[0:stop]] (and [l[:stop]]). *)
Definition slice_to (stop : Z) (l : list A) : list A :=
  firstn (slice_bound (List.length l) stop) l.

(** [l[start:]]. *)
Definition slice_from (start : Z) (l : list A) : list A :=
  skipn (slice_bound (List.length l) start) l.

(** [l[0]]. *)
Definition getitem0 (l : list A) : result A :=
  match l with
  | [] => Raise IndexError
  | x :: _ => Ok x
  end.

(** [d[key]] on a dict given as its items. *)
Fixpoint getitem (d : list (string * A)) (key : string) : result A :=
  match d with
  | [] => Raise (KeyError key)
  | (k, v) :: d' => if String.eqb k key then Ok v else getitem d' key
  end.

Variable key : A -> Z.

(** Stable insertion into a list sorted by [key]: [x] goes before the
    first element whose key is not smaller. *)
Fixpoint insert_by (x : A) (l : list A) : list A :=
  match l with
  | [] => [x]
  | y :: l' => if key x <=? key y then x :: y :: l' else y :: insert_by x l'
  end.

(** A stable ascending sort by [key]. *)
Fixpoint stable_sort (l : list A) : list A :=
  match l with
  | [] => []
  | x :: l' => insert_by x (stable_sort l')
  end.

(** [sorted(l, key=key, reverse=reverse)].  With [reverse=True] Python
    still keeps equal elements in their original order, which is the
    stable ascending sort of the reversed list, reversed.  pandas'
    [sort_values(ascending=False)] on one column does literally that
    ([nargsort] reverses, sorts, reverses back). *)
Definition sorted_by (reverse : bool) (l : list A) : list A :=
  if reverse then rev (stable_sort (rev l)) else stable_sort l.

(** Ascending and descending order by [key]. *)
Definition ascending_by (a b : A) : Prop := key a <= key b.
Definition descending_by (a b : A) : Prop := key b <= key a.
End Sequences.

(** [sum] of a list of integers. *)
Definition zsum (l : list Z) : Z := fold_right Z.add 0 l.

(* ================================================================== *)
(** * float64 *)
(* ================================================================== *)

(** The float operations the module uses.  None of them raises: they follow
    numpy (IEEE-754), where division by zero gives [inf] or [nan]. *)
Class Float64 (F : Type) : Type := {
  of_int : Z -> F;             (* int -> float64 *)
  lit : Q -> F;                (* a decimal literal of the source *)
  nan : F;
  fadd : F -> F -> F;
  fsub : F -> F -> F;
  fmul : F -> F -> F;
  fdiv : F -> F -> F;
  fminimum : F -> F -> F;      (* np.minimum: nan wins *)
  fmaximum : F -> F -> F;      (* np.maximum: nan wins *)
  fisnan : F -> bool           (* np.isnan *)
}.

Declare Scope f64_scope.
Delimit Scope f64_scope with f64.
Infix "+" := fadd : f64_scope.
Infix "-" := fsub : f64_scope.
Infix "*" := fmul : f64_scope.
Infix "/" := fdiv : f64_scope.

(** ** Exact instance: rationals with [inf], [-inf] and [nan] *)

Inductive xfloat : Type :=
| Fin (q : Q)
| PInf
| NInf
| NaN.

Definition xsign (q : Q) : comparison := (Qnum q ?= 0)%Z.

Definition xneg (x : xfloat) : xfloat :=
  match x with
  | Fin q => Fin (Qred (- q))
  | PInf => NInf
  | NInf => PInf
  | NaN => NaN
  end.

Definition xadd (x y : xfloat) : xfloat :=
  match x, y with
  | NaN, _ | _, NaN => NaN
  | Fin a, Fin b => Fin (Qred (a + b))
  | PInf, NInf | NInf, PInf => NaN
  | PInf, _ | _, PInf => PInf
  | NInf, _ | _, NInf => NInf
  end.

Definition xsub (x y : xfloat) : xfloat := xadd x (xneg y).

(** An infinity of the sign of [s] times/over something of sign [c]. *)
Definition xinf (s : bool) (c : comparison) : xfloat :=
  match c with
  | Eq => NaN
  | Gt => if s then PInf else NInf
  | Lt => if s then NInf else PInf
  end.

Definition xmul (x y : xfloat) : xfloat :=
  match x, y with
  | NaN, _ | _, NaN => NaN
  | Fin a, Fin b => Fin (Qred (a * b))
  | PInf, Fin b => xinf true (xsign b)
  | NInf, Fin b => xinf false (xsign b)
  | Fin a, PInf => xinf true (xsign a)
  | Fin a, NInf => xinf false (xsign a)
  | PInf, PInf | NInf, NInf => PInf
  | PInf, NInf | NInf, PInf => NInf
  end.

(** Zero is unsigned here, and taken as [+0] when it divides. *)
Definition xdiv (x y : xfloat) : xfloat :=
  match x, y with
  | NaN, _ | _, NaN => NaN
  | Fin a, Fin b =>
      match xsign b with
      | Eq => xinf true (xsign a)
      | _ => Fin (Qred (a / b))
      end
  | Fin _, _ => Fin 0
  | PInf, Fin b => match xsign b with Lt => NInf | _ => PInf end
  | NInf, Fin b => match xsign b with Lt => PInf | _ => NInf end
  | _, _ => NaN
  end.

(** [x <= y] on non-[nan] values. *)
Definition xleb (x y : xfloat) : bool :=
  match x, y with
  | NaN, _ | _, NaN => false
  | NInf, _ | _, PInf => true
  | PInf, _ | _, NInf => false
  | Fin a, Fin b => Qle_bool a b
  end.

Definition xminimum (x y : xfloat) : xfloat :=
  match x, y with
  | NaN, _ | _, NaN => NaN
  | _, _ => if xleb x y then x else y
  end.

Definition xmaximum (x y : xfloat) : xfloat :=
  match x, y with
  | NaN, _ | _, NaN => NaN
  | _, _ => if xleb x y then y else x
  end.

Definition xisnan (x : xfloat) : bool :=
  match x with NaN => true | _ => false end.

#[export] Instance exact : Float64 xfloat := {
  of_int z := Fin (inject_Z z);
  lit q := Fin (Qred q);
  nan := NaN;
  fadd := xadd;
  fsub := xsub;
  fmul := xmul;
  fdiv := xdiv;
  fminimum := xminimum;
  fmaximum := xmaximum;
  fisnan := xisnan
}.

(** Two exact values are the same number. *)
Definition xeq (x y : xfloat) : Prop :=
  match x, y with
  | Fin a, Fin b => (a == b)%Q
  | PInf, PInf | NInf, NInf | NaN, NaN => True
  | _, _ => False
  end.

Definition xfinite (x : xfloat) : Prop :=
  match x with Fin _ => True | _ => False end.

(** ** IEEE-754 instance: the kernel's binary64 *)

(** int -> float64, through a 63-bit machine integer: the nearest double,
    as Python and numpy convert, for |z| < 2^63 (the int64 range), and
    exact for |z| <= 2^53. *)
Definition b64_of_int (z : Z) : float :=
  match z with
  | Z0 => PrimFloat.zero
  | Zpos _ => PrimFloat.of_uint63 (Uint63.of_Z z)
  | Zneg _ => PrimFloat.opp (PrimFloat.of_uint63 (Uint63.of_Z (- z)))
  end.

(** np.minimum / np.maximum propagate [nan]. *)
Definition b64_minimum (x y : float) : float :=
  if PrimFloat.is_nan x then x
  else if PrimFloat.is_nan y then y
  else if PrimFloat.leb x y then x else y.

Definition b64_maximum (x y : float) : float :=
  if PrimFloat.is_nan x then x
  else if PrimFloat.is_nan y then y
  else if PrimFloat.leb x y then y else x.

#[export] Instance binary64 : Float64 float := {
  of_int := b64_of_int;
  (* the correctly rounded quotient of two exactly represented integers is
     the double nearest to the literal *)
  lit q := PrimFloat.div (b64_of_int (Qnum q)) (b64_of_int (Zpos (Qden q)));
  nan := PrimFloat.nan;
  fadd := PrimFloat.add;
  fsub := PrimFloat.sub;
  fmul := PrimFloat.mul;
  fdiv := PrimFloat.div;
  fminimum := b64_minimum;
  fmaximum := b64_maximum;
  fisnan := PrimFloat.is_nan
}.

(** The percentage every chart computes: [count / total * 100]. *)
Definition percent_of {F : Type} `{Float64 F} (count total : Z) : F :=
  (of_int count / of_int total * of_int 100)%f64.


(* ================================================================== *)
(** * The class [UniViz] *)
(* ================================================================== *)

(** The mutable attributes of an instance: one flag per chart type, "to
    know if the chart is plotted error-lessly".  They are class attributes
    initialised to [False]; [self.pie = True] and the like set them on the
    instance. *)
Record UniViz : Type := {
  pie : bool;
  barplot : bool;
  box : bool;
  hist : bool;
  qqnorm : bool;
  kde : bool
}.

Definition UniViz_init : UniViz :=
  {| pie := false; barplot := false; box := false;
     hist := false; qqnorm := false; kde := false |}.

(** [self.<flag> = True]. *)
Definition set_pie (self : UniViz) : UniViz :=
  {| pie := true; barplot := barplot self; box := box self;
     hist := hist self; qqnorm := qqnorm self; kde := kde self |}.
Definition set_barplot (self : UniViz) : UniViz :=
  {| pie := pie self; barplot := true; box := box self;
     hist := hist self; qqnorm := qqnorm self; kde := kde self |}.
Definition set_box (self : UniViz) : UniViz :=
  {| pie := pie self; barplot := barplot self; box := true;
     hist := hist self; qqnorm := qqnorm self; kde := kde self |}.
Definition set_hist (self : UniViz) : UniViz :=
  {| pie := pie self; barplot := barplot self; box := box self;
     hist := true; qqnorm := qqnorm self; kde := kde self |}.
Definition set_qqnorm (self : UniViz) : UniViz :=
  {| pie := pie self; barplot := barplot self; box := box self;
     hist := hist self; qqnorm := true; kde := kde self |}.
Definition set_kde (self : UniViz) : UniViz :=
  {| pie := pie self; barplot := barplot self; box := box self;
     hist := hist self; qqnorm := qqnorm self; kde := true |}.

(** The class constants. *)
Definition max_xlab_len : Z := 15.
Definition max_num_legend : Z := 7.
Definition num_x_vals : Z := 50.
Definition max_bar_labels : Z := 30.

(** [len(x)] as a Python int. *)
Definition len {A : Type} (l : list A) : Z := Z.of_nat (List.length l).

(** [a / b] on two Python ints: true division, which raises on zero. *)
Definition py_truediv {F : Type} `{Float64 F} (a b : Z) : result F :=
  if b =? 0 then Raise ZeroDivisionError else Ok (of_int a / of_int b)%f64.

(** A figure title: the column name alone, or followed by
    ["(<p>% missing values)"] where <p> is [round(miss_perc, 1)]; the field
    holds the percentage before rounding and formatting. *)
Inductive title (F : Type) : Type :=
| Plain (col : string)
| WithMissing (col : string) (miss_perc : F)
| By (col_y col_x : string).

Arguments Plain {F} col.
Arguments WithMissing {F} col miss_perc.
Arguments By {F} col_y col_x.

Section Charts.
Context {F : Type} `{Float64 F}.
Local Open Scope py_scope.

(* ---------------------------------------------------------------- *)
(** ** Pie chart *)

(** A row of [data_df]. *)
Record pie_row : Type := {
  pie_cat : string;
  pie_count : Z;
  pie_percen : F
}.

Record pie_fig : Type := {
  pie_title : title F;
  pie_source : list pie_row;     (* one wedge per row *)
  pie_legend : bool
}.

(** [pd.Series(data).dropna()]: entries whose value is missing go. *)
Fixpoint dropna (data : list (string * option Z)) : list (string * Z) :=
  match data with
  | [] => []
  | (k, Some v) :: data' => (k, v) :: dropna data'
  | (_, None) :: data' => dropna data'
  end.

(** [df.sort_values(by=["count"], ascending=ascending)].  pandas sorts
    with numpy's default kind, which is an insertion sort (stable) on
    tables of up to 16 rows; on longer ones rows of equal count may come
    out in another order.  What is proved of the pie chart below uses only
    that the result is a permutation ordered by count, the worked example
    (four rows) apart. *)
Definition sort_values (ascending : bool) (df : list (string * Z))
  : list (string * Z) :=
  sorted_by snd (negb ascending) df.

(** The [count] column. *)
Definition counts (df : list (string * Z)) : list Z := map snd df.

(** The rows shown: all of them, or the first [bars] and "Other". *)
Definition pie_rows (data : list (string * option Z)) (bars : Z)
           (ascending : bool) : list (string * Z) :=
  let data_df := dropna data in
  let data_sorted := sort_values ascending data_df in
  if len data_sorted >? bars then
    slice_to bars data_sorted
      ++ [("Other"%string, zsum (slice_from bars (counts data_sorted)))]
  else data_sorted.

Definition pie_viz (self : UniViz) (data : list (string * option Z))
           (col_x : string) (bars : Z) (ascending : bool)
  : result (pie_fig * UniViz) :=
  let data_df := pie_rows data bars ascending in
  let total_count := zsum (counts data_df) in
  let source :=
    map (fun r => {| pie_cat := fst r;
                     pie_count := snd r;
                     pie_percen := (of_int (snd r) / of_int total_count
                                    * of_int 100)%f64 |}) data_df in
  Ok ({| pie_title := Plain col_x;
         pie_source := source;
         pie_legend := len source <=? max_num_legend |},
      set_pie self).

(* ---------------------------------------------------------------- *)
(** ** Bar chart *)

Record bar_row : Type := {
  bar_count : Z;
  bar_cat : string;
  bar_percen : F
}.

Record bar_fig : Type := {
  bar_title : title F;
  bar_x_range : list string;               (* FactorRange(factors=cat_list) *)
  bar_source : list bar_row;               (* one VBar per row, bottom=0 *)
  bar_caption : option (Z * Z);            (* "Top {} of {} categories" *)
  bar_labels_hidden : bool
}.

(** The x label of a category: longer than [max_xlab_len] characters, it
    is cut to [max_xlab_len - 1] and gets an ellipsis. *)
Definition xlabel (s : string) : string :=
  if Z.of_nat (String.length s) >? max_xlab_len
  then (String.substring 0 (Z.to_nat (max_xlab_len - 1)) s ++ "...")%string
  else s.

Definition bar_viz (self : UniViz) (data : list (string * Z))
           (missing : list Z) (col_x : string) (bars : Z) (ascending : bool)
  : result (bar_fig * UniViz) :=
  miss_cnt <- getitem0 missing ;;
  let data_sorted := slice_to bars (sorted_by snd (negb ascending) data) in
  let cat_list := map (fun x => xlabel (fst x)) data_sorted in
  let total := zsum (map snd data) + miss_cnt in
  let source :=
    map (fun x => {| bar_count := snd x;
                     bar_cat := xlabel (fst x);
                     bar_percen := (of_int (snd x) / of_int total
                                    * of_int 100)%f64 |}) data_sorted in
  ttl <- (if miss_cnt >? 0
          then (q <- py_truediv miss_cnt total ;;
                Ok (WithMissing col_x (q * of_int 100)%f64))
          else Ok (Plain col_x)) ;;
  Ok ({| bar_title := ttl;
         bar_x_range := cat_list;
         bar_source := source;
         bar_caption := if len data >? bars
                        then Some (len source, len data) else None;
         bar_labels_hidden := bars >? max_bar_labels |},
      set_barplot self).

(** The rows [bar_viz] displays. *)
Definition bar_rows (data : list (string * Z)) (bars : Z) (ascending : bool)
  : list (string * Z) :=
  slice_to bars (sorted_by snd (negb ascending) data).

(* ---------------------------------------------------------------- *)
(** ** Histogram *)

Record hist_row : Type := {
  hist_left : F;
  hist_right : F;
  hist_freq : Z;
  hist_percen : F
}.

(** A rectangle drawn by [figure.quad]. *)
Record quad : Type := {
  quad_left : F;
  quad_right : F;
  quad_bottom : F;
  quad_top : F
}.

Inductive axis_type : Type := linear | log.

Record hist_fig : Type := {
  hist_title : title F;
  hist_y_axis_type : axis_type;
  hist_source : list hist_row;
  hist_quads : list quad;
  hist_ticker : list F;
  hist_y_decorations : bool
}.

(** The rows of [pd.DataFrame({"left": .., "right": .., "freq": ..,
    "percen": ..})]: the four columns zipped. *)
Fixpoint hist_rows (left right : list F) (freq : list Z) (percen : list F)
  : list hist_row :=
  match left, right, freq, percen with
  | l :: left', r :: right', f :: freq', p :: percen' =>
      {| hist_left := l; hist_right := r; hist_freq := f; hist_percen := p |}
        :: hist_rows left' right' freq' percen'
  | _, _, _, _ => []
  end.

(** The constructor refuses columns of different lengths. *)
Definition hist_frame (left right : list F) (freq : list Z) (percen : list F)
  : result (list hist_row) :=
  if (len left =? len right) && (len right =? len freq)
     && (len freq =? len percen)
  then Ok (hist_rows left right freq percen)
  else Raise ValueError.

Definition hist_viz (self : UniViz) (data : list Z * list F)
           (missing : list Z) (orig_df_len : Z) (show_y_label : bool)
           (col_x : string) (yscale : axis_type)
  : result (hist_fig * UniViz) :=
  let hist_array := fst data in
  let bins_array := snd data in
  miss_cnt <- getitem0 missing ;;
  ttl <- (if miss_cnt >? 0
          then (q <- py_truediv miss_cnt orig_df_len ;;
                Ok (WithMissing col_x (q * of_int 100)%f64))
          else Ok (Plain col_x)) ;;
  data_source <-
    hist_frame (slice_to (-1) bins_array)
               (slice_from 1 bins_array)
               hist_array
               (map (fun f => (of_int f / of_int orig_df_len * of_int 100)%f64)
                    hist_array) ;;
  Ok ({| hist_title := ttl;
         hist_y_axis_type := yscale;
         hist_source := data_source;
         hist_quads :=
           map (fun r => {| quad_left := hist_left r;
                            quad_right := hist_right r;
                            quad_bottom := lit (1 # 100);
                            quad_top := of_int (hist_freq r) |}) data_source;
         hist_ticker := bins_array;
         hist_y_decorations := show_y_label |},
      set_hist self).

(* ---------------------------------------------------------------- *)
(** ** QQ-norm plot *)

Record qq_fig : Type := {
  qq_title : title F;
  qq_circle_x : list F;
  qq_circle_y : list F;
  qq_line_x : list F;                      (* the red reference line *)
  qq_line_y : list F;
  qq_ylabel_col : string                   (* "Quantiles of {}" *)
}.

(** [np.min] and [np.max] of a one-dimensional array: a [ValueError] on
    an empty one, and [nan] as soon as one element is [nan]. *)
Definition np_min (a : list F) : result F :=
  match a with
  | [] => Raise ValueError
  | x :: a' => Ok (fold_left fminimum a' x)
  end.

Definition np_max (a : list F) : result F :=
  match a with
  | [] => Raise ValueError
  | x :: a' => Ok (fold_left fmaximum a' x)
  end.

Definition qqnorm_viz (self : UniViz) (in_data : list (string * list F))
           (col_x : string) : result (qq_fig * UniViz) :=
  theory <- getitem in_data "theory" ;;
  sample <- getitem in_data "sample" ;;
  let all_values := theory ++ sample in
  lo <- np_min all_values ;;
  hi <- np_max all_values ;;
  Ok ({| qq_title := Plain col_x;
         qq_circle_x := theory;
         qq_circle_y := sample;
         qq_line_x := [lo; hi];
         qq_line_y := [lo; hi];
         qq_ylabel_col := col_x |},
      set_qqnorm self).

(* ---------------------------------------------------------------- *)
(** ** Histogram with a kernel density estimate *)

Record kde_row : Type := {
  kde_left : F;
  kde_right : F;
  kde_freq : F
}.

Record kde_fig : Type := {
  kde_title : title F;
  kde_source : list kde_row;
  kde_line_x : list F;
  kde_line_y : list F
}.

Fixpoint kde_rows (left right freq : list F) : list kde_row :=
  match left, right, freq with
  | l :: left', r :: right', f :: freq' =>
      {| kde_left := l; kde_right := r; kde_freq := f |}
        :: kde_rows left' right' freq'
  | _, _, _ => []
  end.

Definition kde_frame (left right freq : list F) : result (list kde_row) :=
  if (len left =? len right) && (len right =? len freq)
  then Ok (kde_rows left right freq)
  else Raise ValueError.

Section Kde.
(** The statistics are computed by numpy and scipy, outside this
    module; they are taken as given. *)
(* np.histogram(data, density=True): (freq, edges) *)
Variable np_histogram : list F -> result (list F * list F).
(* np.linspace(start, stop, num) *)
Variable np_linspace : F -> F -> Z -> list F.
(* gaussian_kde(data, bw_method=bandwidth): the fitted density *)
Variable gaussian_kde : list F -> F -> result (list F -> list F).

Definition hist_kde_viz (self : UniViz) (data : list F) (bandwidth : F)
           (col_x : string) : result (kde_fig * UniViz) :=
  let data := filter (fun v => negb (fisnan v)) data in
  fe <- np_histogram data ;;
  let freq := fst fe in
  let edges := snd fe in
  lo <- np_min data ;;
  hi <- np_max data ;;
  let x_vals := np_linspace lo hi num_x_vals in
  pdf <- gaussian_kde data bandwidth ;;
  data_source <- kde_frame (slice_to (-1) edges) (slice_from 1 edges) freq ;;
  Ok ({| kde_title := Plain col_x;
         kde_source := data_source;
         kde_line_x := x_vals;
         kde_line_y := pdf x_vals |},
      set_kde self).
End Kde.

(* ---------------------------------------------------------------- *)
(** ** Box plot *)

(** The summary of one category, a dict with the keys "lw", "tf", "fy",
    "sf", "uw" and "outliers"; [None] is a key the dict does not have. *)
Record five_num : Type := {
  lw : option F;
  tf : option F;
  fy : option F;
  sf : option F;
  uw : option F;
  outliers : option (list F)
}.

(** A row of the transposed frame [df]. *)
Record box_row : Type := {
  box_cat : string;
  box_lw : F;
  box_tf : F;
  box_fy : F;
  box_sf : F;
  box_uw : F;
  box_x : Z;
  box_y : F;
  box_w : F;
  box_x0 : F;
  box_x1 : F;
  box_h : F
}.

Record box_fig : Type := {
  box_title : title F;
  box_source : list box_row;               (* Rect(x, y, w, h) and segments *)
  box_outliers : list (list (F * F));      (* one Circle glyph per category *)
  box_ticks : list Z;
  box_tick_labels : list (Z * string);     (* the formatter's mapping *)
  box_ylabel : option string
}.

Definition is_some {A : Type} (o : option A) : bool :=
  match o with Some _ => true | None => false end.

(** A cell of the frame: a key one category lacks and another has is
    [nan] there. *)
Definition cell (o : option F) : F :=
  match o with Some v => v | None => nan end.

(** [df[key]]: the column exists when some category has the key. *)
Definition column (key : string) (get : five_num -> option F)
           (data : list (string * five_num)) : result (list F) :=
  if existsb (fun r => is_some (get (snd r))) data
  then Ok (map (fun r => cell (get (snd r))) data)
  else Raise (KeyError key).

(** A summary that has the keys [box_viz] cannot do without. *)
Definition has_box_keys (r : five_num) : Prop :=
  is_some (tf r) = true /\ is_some (sf r) = true /\
  is_some (outliers r) = true.

(** [zip(df.columns, range(1, len(df.columns) + 1))]. *)
Fixpoint enumerate_from {A : Type} (i : Z) (l : list A) : list (Z * A) :=
  match l with
  | [] => []
  | a :: l' => (i, a) :: enumerate_from (i + 1) l'
  end.

(** The loop over [df.index] that builds the outlier glyphs:
    [series["outliers"]] is a [KeyError] when no category has outliers,
    and [len] of it a [TypeError] when only this one has none. *)
Fixpoint outlier_glyphs (has_column : bool)
         (rows : list (Z * (string * five_num)))
  : result (list (list (F * F))) :=
  match rows with
  | [] => Ok []
  | (x, (_, r)) :: rows' =>
      match outliers r with
      | Some ys =>
          rest <- outlier_glyphs has_column rows' ;;
          Ok (map (fun y => (of_int x, y)) ys :: rest)
      | None =>
          Raise (if has_column then TypeError else KeyError "outliers")
      end
  end.

Definition default_box_width : F := lit (1 # 4).

Definition box_viz (self : UniViz) (data : list (string * five_num))
           (col_x : string) (col_y : option string) (box_width : F)
  : result (box_fig * UniViz) :=
  let xs := enumerate_from 1 data in
  _ <- column "tf" tf data ;;
  _ <- column "sf" sf data ;;
  let df :=
    map (fun xr =>
           let x := fst xr in
           let r := snd (snd xr) in
           {| box_cat := fst (snd xr);
              box_lw := cell (lw r);
              box_tf := cell (tf r);
              box_fy := cell (fy r);
              box_sf := cell (sf r);
              box_uw := cell (uw r);
              box_x := x;
              box_y := ((cell (tf r) + cell (sf r)) / of_int 2)%f64;
              box_w := box_width;
              box_x0 := (of_int x - box_width / of_int 2)%f64;
              box_x1 := (of_int x + box_width / of_int 2)%f64;
              box_h := (cell (sf r) - cell (tf r))%f64 |}) xs in
  let ttl := match col_y with
             | None => Plain col_x
             | Some cy => By cy col_x
             end in
  glyphs <- outlier_glyphs
              (existsb (fun r => is_some (outliers (snd r))) data) xs ;;
  Ok ({| box_title := ttl;
         box_source := df;
         box_outliers := glyphs;
         box_ticks := map box_x df;
         box_tick_labels := map (fun r => (box_x r, box_cat r)) df;
         box_ylabel := col_y |},
      set_box self).
End Charts.

(* ================================================================== *)
(** * Sessions: calls on one instance *)
(* ================================================================== *)

(** The names of the six flags, to speak of "the flag of a chart type". *)
Inductive flag : Type := FPie | FBarplot | FBox | FHist | FQqnorm | FKde.

Definition get_flag (f : flag) (self : UniViz) : bool :=
  match f with
  | FPie => pie self
  | FBarplot => barplot self
  | FBox => box self
  | FHist => hist self
  | FQqnorm => qqnorm self
  | FKde => kde self
  end.

Definition set_flag (f : flag) (self : UniViz) : UniViz :=
  match f with
  | FPie => set_pie self
  | FBarplot => set_barplot self
  | FBox => set_box self
  | FHist => set_hist self
  | FQqnorm => set_qqnorm self
  | FKde => set_kde self
  end.

Section Calls.
Context {F : Type} `{Float64 F}.
(* the numpy and scipy routines behind [hist_kde_viz] *)
Variable np_histogram : list F -> result (list F * list F).
Variable np_linspace : F -> F -> Z -> list F.
Variable gaussian_kde : list F -> F -> result (list F -> list F).

(** A call of one of the six methods, with its arguments. *)
Inductive call : Type :=
| CallPie (data : list (string * option Z)) (col_x : string) (bars : Z)
          (ascending : bool)
| CallBar (data : list (string * Z)) (missing : list Z) (col_x : string)
          (bars : Z) (ascending : bool)
| CallHist (data : list Z * list F) (missing : list Z) (orig_df_len : Z)
           (show_y_label : bool) (col_x : string) (yscale : axis_type)
| CallQqnorm (in_data : list (string * list F)) (col_x : string)
| CallKde (data : list F) (bandwidth : F) (col_x : string)
| CallBox (data : list (string * five_num (F := F))) (col_x : string)
          (col_y : option string) (box_width : F).

(** The flag that belongs to the called method. *)
Definition flag_of (c : call) : flag :=
  match c with
  | CallPie _ _ _ _ => FPie
  | CallBar _ _ _ _ _ => FBarplot
  | CallHist _ _ _ _ _ _ => FHist
  | CallQqnorm _ _ => FQqnorm
  | CallKde _ _ _ => FKde
  | CallBox _ _ _ _ => FBox
  end.

(** What a call leaves behind: the instance as the method left it (as it
    was, when the method raised) and whether the method returned. *)
Definition outcome {A : Type} (self : UniViz) (r : result (A * UniViz))
  : UniViz * bool :=
  match r with
  | Ok (_, self') => (self', true)
  | Raise _ => (self, false)
  end.

Definition run (self : UniViz) (c : call) : UniViz * bool :=
  match c with
  | CallPie data col_x bars ascending =>
      outcome self (pie_viz (F := F) self data col_x bars ascending)
  | CallBar data missing col_x bars ascending =>
      outcome self (bar_viz (F := F) self data missing col_x bars ascending)
  | CallHist data missing orig_df_len show_y_label col_x yscale =>
      outcome self (hist_viz self data missing orig_df_len show_y_label
                             col_x yscale)
  | CallQqnorm in_data col_x =>
      outcome self (qqnorm_viz self in_data col_x)
  | CallKde data bandwidth col_x =>
      outcome self (hist_kde_viz np_histogram np_linspace gaussian_kde
                                 self data bandwidth col_x)
  | CallBox data col_x col_y box_width =>
      outcome self (box_viz self data col_x col_y box_width)
  end.

(** A sequence of calls on one instance. *)
Definition run_all (self : UniViz) (calls : list call) : UniViz :=
  fold_left (fun s c => fst (run s c)) calls self.
End Calls.

(* ================================================================== *)
(** * Statements of the specification that the code does not meet *)
(* ================================================================== *)


(** C4 as the specification states it, for the operations it names: an
    empty summary or a zero denominator makes the call fail. *)
Definition surfaces_failure_claim : Prop :=
  (forall (self : UniViz) (data : list (string * option Z)) (col_x : string)
          (bars : Z) (ascending : bool),
      dropna data = [] \/ zsum (counts (dropna data)) = 0 ->
      is_ok (pie_viz (F := xfloat) self data col_x bars ascending) = false) /\
  (forall (self : UniViz) (data : list Z * list xfloat) (missing : list Z)
          (show_y_label : bool) (col_x : string) (yscale : axis_type),
      is_ok (hist_viz self data missing 0 show_y_label col_x yscale) = false).

(** C6 as the specification states it: every rectangle [hist_viz] draws
    sits on the x axis, its bottom coordinate being 0. *)
Definition hist_quad_bottom_claim : Prop :=
  forall (self : UniViz) (freqs : list Z) (edges : list xfloat)
         (missing : list Z) (orig_df_len : Z) (show_y_label : bool)
         (col_x : string) (yscale : axis_type) fig st,
    hist_viz self (freqs, edges) missing orig_df_len show_y_label col_x yscale
    = Ok (fig, st) ->
    Forall (fun q => xeq (quad_bottom q) (Fin 0)) (hist_quads fig).

(* ================================================================== *)
(** * Reading a result *)
(* ================================================================== *)

(** The figure a call returns (or the exception it raises), without the
    instance. *)
Definition figure_of {A : Type} (r : result (A * UniViz)) : result A :=
  match r with
  | Ok (fig, _) => Ok fig
  | Raise e => Raise e
  end.

(** The tick formatter of the box plot, [return mapping[tick]], on the
    mapping [{key: value for key, value in zip(df["x"], df.index)}]: in a
    dict comprehension a later pair with the same key replaces an earlier
    one. *)
Fixpoint tick_label (mapping : list (Z * string)) (tick : Z) : option string :=
  match mapping with
  | [] => None
  | (k, v) :: mapping' =>
      match tick_label mapping' tick with
      | Some v' => Some v'
      | None => if k =? tick then Some v else None
      end
  end.

Definition flag_eqb (f g : flag) : bool :=
  match f, g with
  | FPie, FPie | FBarplot, FBarplot | FBox, FBox
  | FHist, FHist | FQqnorm, FQqnorm | FKde, FKde => true
  | _, _ => false
  end.

(* ================================================================== *)
(** * Facts about sequences *)
(* ================================================================== *)

Section SequenceFacts.
Variable A : Type.
Variable key : A -> Z.

Lemma insert_by_perm (x : A) (l : list A) :
  Permutation (insert_by key x l) (x :: l).
Proof.
  induction l as [|y l IH]; simpl.
  - apply Permutation_refl.
  - destruct (key x <=? key y).
    + apply Permutation_refl.
    + eapply perm_trans; [apply perm_skip, IH | apply perm_swap].
Qed.

Lemma stable_sort_perm (l : list A) : Permutation (stable_sort key l) l.
Proof.
  induction l as [|x l IH]; simpl.
  - constructor.
  - eapply perm_trans; [apply insert_by_perm | now apply perm_skip].
Qed.

Lemma sorted_by_perm (reverse : bool) (l : list A) :
  Permutation (sorted_by key reverse l) l.
Proof.
  unfold sorted_by; destruct reverse.
  - eapply perm_trans; [apply Permutation_sym, Permutation_rev|].
    eapply perm_trans; [apply stable_sort_perm|].
    apply Permutation_sym, Permutation_rev.
  - apply stable_sort_perm.
Qed.

Lemma insert_by_sorted (x : A) (l : list A) :
  StronglySorted (ascending_by key) l ->
  StronglySorted (ascending_by key) (insert_by key x l).
Proof.
  induction 1 as [|y l Hl IH Hy]; simpl.
  - repeat constructor.
  - destruct (key x <=? key y) eqn:E.
    + apply Z.leb_le in E.
      constructor; [now constructor|].
      constructor; [exact E|].
      eapply Forall_impl; [|exact Hy].
      unfold ascending_by; intros; lia.
    + apply Z.leb_gt in E.
      constructor; [exact IH|].
      eapply Permutation_Forall; [apply Permutation_sym, insert_by_perm|].
      constructor; [unfold ascending_by; lia | exact Hy].
Qed.

Lemma stable_sort_sorted (l : list A) :
  StronglySorted (ascending_by key) (stable_sort key l).
Proof.
  induction l; simpl; [constructor | now apply insert_by_sorted].
Qed.

Lemma StronglySorted_snoc (R : A -> A -> Prop) (l : list A) (x : A) :
  StronglySorted R l -> Forall (fun y => R y x) l ->
  StronglySorted R (l ++ [x]).
Proof.
  induction 1 as [|y l Hl IH Hy]; simpl; intros Hx.
  - repeat constructor.
  - inversion Hx; subst.
    constructor; [now apply IH|].
    apply Forall_app; split; [exact Hy | now repeat constructor].
Qed.

Lemma StronglySorted_rev (l : list A) :
  StronglySorted (ascending_by key) l -> StronglySorted (descending_by key) (rev l).
Proof.
  induction 1 as [|y l Hl IH Hy]; simpl.
  - constructor.
  - apply StronglySorted_snoc; [exact IH|].
    apply Forall_rev. exact Hy.
Qed.

(** [sorted] orders as its [reverse] flag says. *)
Lemma sorted_by_sorted (reverse : bool) (l : list A) :
  StronglySorted (if reverse then descending_by key else ascending_by key)
                 (sorted_by key reverse l).
Proof.
  unfold sorted_by; destruct reverse.
  - apply StronglySorted_rev, stable_sort_sorted.
  - apply stable_sort_sorted.
Qed.


Lemma slice_to_from (i : Z) (l : list A) :
  slice_to i l ++ slice_from i l = l.
Proof. apply firstn_skipn. Qed.
End SequenceFacts.

Lemma zsum_app (l1 l2 : list Z) : zsum (l1 ++ l2) = zsum l1 + zsum l2.
Proof. induction l1; simpl; lia. Qed.

Lemma zsum_perm (l1 l2 : list Z) : Permutation l1 l2 -> zsum l1 = zsum l2.
Proof. induction 1; simpl; lia. Qed.

Lemma slice_from_map (A B : Type) (f : A -> B) (i : Z) (l : list A) :
  slice_from i (map f l) = map f (slice_from i l).
Proof.
  unfold slice_from. rewrite length_map. apply skipn_map.
Qed.


(* ================================================================== *)
(** * Facts about exact float arithmetic *)
(* ================================================================== *)

Lemma xeq_refl (x : xfloat) : xeq x x.
Proof. destruct x; simpl; auto. reflexivity. Qed.

Lemma xeq_sym (x y : xfloat) : xeq x y -> xeq y x.
Proof. destruct x, y; simpl; auto. intros E; now rewrite E. Qed.


Lemma xsign_inject_Z (t : Z) : xsign (inject_Z t) = (t ?= 0).
Proof. reflexivity. Qed.


(** With a non-zero total the percentage is the finite number it should be. *)
Lemma percent_of_finite (c t : Z) :
  t <> 0 ->
  percent_of (F := xfloat) c t
  = Fin (Qred (Qred (inject_Z c / inject_Z t) * inject_Z 100)).
Proof.
  intros Ht. unfold percent_of; simpl.
  rewrite xsign_inject_Z.
  destruct (t ?= 0) eqn:E; [apply Z.compare_eq in E; contradiction | | ];
    reflexivity.
Qed.

Lemma percent_of_value (c t : Z) :
  t <> 0 ->
  xeq (percent_of (F := xfloat) c t) (Fin (inject_Z c / inject_Z t * 100)).
Proof.
  intros Ht. rewrite percent_of_finite by exact Ht. unfold xeq.
  rewrite !Qred_correct. reflexivity.
Qed.

(** With a zero total it is [nan] for a zero count and an infinity
    otherwise: never a finite number. *)
Lemma percent_of_zero_total (c : Z) :
  percent_of (F := xfloat) c 0
  = match c ?= 0 with Eq => NaN | Lt => NInf | Gt => PInf end.
Proof.
  unfold percent_of; simpl. rewrite xsign_inject_Z.
  destruct c; reflexivity.
Qed.

Lemma percent_of_zero_total_not_finite (c : Z) :
  ~ xfinite (percent_of (F := xfloat) c 0).
Proof.
  rewrite percent_of_zero_total. destruct (c ?= 0); simpl; tauto.
Qed.

(** A count of zero is zero percent of any non-zero total. *)
Lemma percent_of_zero_count (t : Z) :
  t <> 0 -> percent_of (F := xfloat) 0 t = Fin 0.
Proof.
  intros Ht. rewrite percent_of_finite by exact Ht.
  (* 0 / t has numerator 0, which [Qred] normalises to 0 # 1 *)
  reflexivity.
Qed.



(* ================================================================== *)
(** * Pie chart: the percentages and the "Other" bucket *)
(* ================================================================== *)

Section PieFacts.
Context {F : Type} `{Float64 F}.

Lemma sort_values_perm (ascending : bool) (df : list (string * Z)) :
  Permutation (sort_values ascending df) df.
Proof. apply sorted_by_perm. Qed.

Lemma sort_values_length (ascending : bool) (df : list (string * Z)) :
  len (sort_values ascending df) = len df.
Proof.
  unfold len. f_equal. apply Permutation_length, sort_values_perm.
Qed.

Lemma sort_values_sorted (ascending : bool) (df : list (string * Z)) :
  StronglySorted (if ascending then ascending_by snd else descending_by snd)
                 (sort_values ascending df).
Proof.
  unfold sort_values.
  pose proof (sorted_by_sorted (@snd string Z) (negb ascending) df) as S.
  destruct ascending; exact S.
Qed.

(** Collapsing the tail into "Other" keeps the total. *)
Lemma pie_rows_total (data : list (string * option Z)) (bars : Z)
      (ascending : bool) :
  zsum (counts (pie_rows data bars ascending)) = zsum (counts (dropna data)).
Proof.
  unfold pie_rows.
  set (s := sort_values ascending (dropna data)).
  assert (Hs : zsum (counts s) = zsum (counts (dropna data))).
  { apply zsum_perm. unfold counts. apply Permutation_map, sort_values_perm. }
  destruct (len s >? bars); [|exact Hs].
  unfold counts in *. rewrite map_app, zsum_app. simpl.
  rewrite slice_from_map, <- Hs.
  rewrite <- (slice_to_from bars s) at 3.
  rewrite map_app, zsum_app. lia.
Qed.

(** What [pie_viz] returns, spelled out: it never raises. *)
Lemma pie_viz_unfold (self : UniViz) (data : list (string * option Z))
      (col_x : string) (bars : Z) (ascending : bool) :
  exists fig,
    pie_viz self data col_x bars ascending = Ok (fig, set_pie self) /\
    map (fun r => (pie_cat r, pie_count r)) (pie_source fig)
    = pie_rows data bars ascending /\
    map pie_percen (pie_source fig)
    = map (fun c => percent_of c (zsum (counts (dropna data))))
          (counts (pie_rows data bars ascending)).
Proof.
  eexists. split; [reflexivity|]. simpl.
  rewrite !map_map. split.
  - rewrite <- (map_id (pie_rows data bars ascending)) at 2.
    apply map_ext. now intros [c n].
  - unfold counts. rewrite map_map.
    apply map_ext. intros [c n]. simpl.
    fold (counts (pie_rows data bars ascending)).
    now rewrite pie_rows_total.
Qed.
End PieFacts.






(* ================================================================== *)
(** * Bar chart: percentages and labels *)
(* ================================================================== *)

Section BarFacts.
Context {F : Type} `{Float64 F}.

(** [bar_viz] returns as soon as [missing] has an element and the title's
    division is defined; the table it builds is then the one below. *)
Lemma bar_viz_unfold (self : UniViz) (data : list (string * Z))
      (miss_cnt : Z) (rest : list Z) (col_x : string) (bars : Z)
      (ascending : bool) :
  miss_cnt <= 0 \/ zsum (map snd data) + miss_cnt <> 0 ->
  exists fig,
    bar_viz self data (miss_cnt :: rest) col_x bars ascending
    = Ok (fig, set_barplot self) /\
    bar_x_range fig
    = map (fun x => xlabel (fst x)) (bar_rows data bars ascending) /\
    map bar_cat (bar_source fig)
    = map (fun x => xlabel (fst x)) (bar_rows data bars ascending) /\
    map bar_count (bar_source fig)
    = map snd (bar_rows data bars ascending) /\
    map bar_percen (bar_source fig)
    = map (fun x => percent_of (snd x) (zsum (map snd data) + miss_cnt))
          (bar_rows data bars ascending).
Proof.
  intros Hret. unfold bar_viz. cbn [getitem0 bind].
  assert (Httl : exists ttl,
             (if miss_cnt >? 0
              then bind (py_truediv miss_cnt (zsum (map snd data) + miss_cnt))
                        (fun q => Ok (WithMissing col_x
                                        (q * of_int 100)%f64))
              else Ok (Plain col_x)) = Ok ttl).
  { destruct (miss_cnt >? 0) eqn:E; [|eauto].
    apply Z.gtb_lt in E. unfold py_truediv.
    destruct (zsum (map snd data) + miss_cnt =? 0) eqn:E0.
    - apply Z.eqb_eq in E0. lia.
    - cbn [bind]. eauto. }
  destruct Httl as (ttl & ->). cbn [bind].
  eexists. split; [reflexivity|]. cbn [bar_x_range bar_source].
  fold (bar_rows data bars ascending).
  rewrite !map_map. repeat split; reflexivity.
Qed.

Lemma xlabel_long (s : string) :
  (15 < String.length s)%nat ->
  xlabel s = (String.substring 0 14 s ++ "...")%string.
Proof.
  intros Hs. unfold xlabel, max_xlab_len.
  replace (Z.of_nat (String.length s) >? 15) with true
    by (symmetry; apply Z.gtb_lt; lia).
  reflexivity.
Qed.

End BarFacts.

(** C3.  For every bar input on which [bar_viz] returns (a missing count
    is given, and the total is not zero when the title divides by it), the
    bars shown are the first [bars] entries by count and each one's
    percentage is its count over [sum of all counts + missing count] times
    100.  On {"a":10,"b":5,"c":1}, missing=[0], bars=2, ascending=False the
    categories are ["a","b"] and the percentages [62.5, 31.25], in exact
    arithmetic and in binary64. *)
Theorem bar_viz_percentages :
  (forall (self : UniViz) (data : list (string * Z)) (miss_cnt : Z)
          (rest : list Z) (col_x : string) (bars : Z) (ascending : bool),
      miss_cnt <= 0 \/ zsum (map snd data) + miss_cnt <> 0 ->
      exists fig,
        bar_viz (F := xfloat) self data (miss_cnt :: rest) col_x bars ascending
        = Ok (fig, set_barplot self) /\
        map bar_count (bar_source fig)
        = map snd (slice_to bars (sorted_by snd (negb ascending) data)) /\
        Forall (fun r =>
                  bar_percen r
                  = (of_int (bar_count r)
                     / of_int (zsum (map snd data) + miss_cnt)
                     * of_int 100)%f64)
               (bar_source fig) /\
        (zsum (map snd data) + miss_cnt <> 0 ->
         Forall (fun r =>
                   xeq (bar_percen r)
                       (Fin (inject_Z (bar_count r)
                             / inject_Z (zsum (map snd data) + miss_cnt)
                             * 100)))
                (bar_source fig))) /\
  (exists fig,
      bar_viz (F := xfloat) UniViz_init
              [("a"%string, 10); ("b"%string, 5); ("c"%string, 1)] [0]
              "col" 2 false
      = Ok (fig, set_barplot UniViz_init) /\
      bar_x_range fig = ["a"%string; "b"%string] /\
      map bar_cat (bar_source fig) = ["a"%string; "b"%string] /\
      map bar_percen (bar_source fig) = [Fin (125 # 2); Fin (125 # 4)]) /\
  (exists fig,
      bar_viz (F := float) UniViz_init
              [("a"%string, 10); ("b"%string, 5); ("c"%string, 1)] [0]
              "col" 2 false
      = Ok (fig, set_barplot UniViz_init) /\
      bar_x_range fig = ["a"%string; "b"%string] /\
      map bar_cat (bar_source fig) = ["a"%string; "b"%string] /\
      map bar_percen (bar_source fig) = [62.5%float; 31.25%float]).
Proof.
  split; [|split; eexists; repeat split].
  intros self data miss_cnt rest col_x bars ascending Hret.
  destruct (bar_viz_unfold (F := xfloat) self data rest col_x bars ascending
              Hret) as (fig & E & _ & _ & Hcnt & Hper).
  exists fig. split; [exact E|]. split; [exact Hcnt|].
  assert (Hrows : Forall (fun r =>
                    bar_percen r
                    = percent_of (bar_count r)
                                 (zsum (map snd data) + miss_cnt))
                         (bar_source fig)).
  { unfold bar_rows in *.
    revert Hcnt Hper.
    generalize (slice_to bars (sorted_by snd (negb ascending) data)).
    induction (bar_source fig) as [|r l IH]; intros [|x xs] Hc Hp;
      try discriminate; constructor.
    - simpl in Hc, Hp. injection Hc as -> _. now injection Hp.
    - simpl in Hc, Hp. injection Hc as _ Hc. injection Hp as _ Hp.
      exact (IH xs Hc Hp). }
  split; [exact Hrows|].
  intros Ht. eapply Forall_impl; [|exact Hrows].
  intros r ->. now apply percent_of_value.
Qed.

(** The general part of C3 at {"p":3,"q":1} with 4 missing values. *)
Lemma bar_viz_percentages_witness :
  exists fig,
    bar_viz (F := xfloat) UniViz_init [("p"%string, 3); ("q"%string, 1)] [4]
            "col" 1 true
    = Ok (fig, set_barplot UniViz_init) /\
    map bar_count (bar_source fig)
    = map snd (slice_to 1 (sorted_by snd (negb true)
                                     [("p"%string, 3); ("q"%string, 1)])) /\
    Forall (fun r =>
              bar_percen r
              = (of_int (bar_count r) / of_int (3 + (1 + 0) + 4)
                 * of_int 100)%f64)
           (bar_source fig) /\
    (3 + (1 + 0) + 4 <> 0 ->
     Forall (fun r =>
               xeq (bar_percen r)
                   (Fin (inject_Z (bar_count r) / inject_Z (3 + (1 + 0) + 4)
                         * 100)))
            (bar_source fig)).
Proof.
  apply (proj1 bar_viz_percentages UniViz_init
           [("p"%string, 3); ("q"%string, 1)] 4 [] "col"%string 1 true).
  right. simpl. lia.
Defined.

(** C10.  Two distinct categories longer than 15 characters that agree on
    their first 14 get the same x label, the common 14 characters and
    "...": every bar input that shows two such categories has two bars
    under one label, and the label (which is also the tooltip's category)
    does not tell them apart. *)
Theorem bar_viz_truncated_labels_collide
  (F : Type) (FF : Float64 F) (self : UniViz) (c1 c2 : string) (n1 n2 : Z)
  (miss_cnt : Z) (rest : list Z) (col_x : string) (bars : Z)
  (ascending : bool) :
  c1 <> c2 ->
  (15 < String.length c1)%nat ->
  (15 < String.length c2)%nat ->
  String.substring 0 14 c1 = String.substring 0 14 c2 ->
  2 <= bars ->
  miss_cnt <= 0 \/ zsum (map snd [(c1, n1); (c2, n2)]) + miss_cnt <> 0 ->
  exists fig label,
    bar_viz self [(c1, n1); (c2, n2)] (miss_cnt :: rest) col_x bars ascending
    = Ok (fig, set_barplot self) /\
    label = (String.substring 0 14 c1 ++ "...")%string /\
    bar_x_range fig = [label; label] /\
    map bar_cat (bar_source fig) = [label; label].
Proof.
  intros _ L1 L2 Hpre Hb Hret.
  destruct (bar_viz_unfold self [(c1, n1); (c2, n2)] rest col_x bars ascending
              Hret) as (fig & E & Hx & Hc & _ & _).
  exists fig, (String.substring 0 14 c1 ++ "...")%string.
  split; [exact E|]. split; [reflexivity|].
  rewrite Hx, Hc.
  assert (Hrows : map (fun x : string * Z => xlabel (fst x))
                      (bar_rows [(c1, n1); (c2, n2)] bars ascending)
                  = [xlabel c1; xlabel c1]).
  { assert (Hl : xlabel c2 = xlabel c1)
      by (rewrite !xlabel_long by assumption; now rewrite Hpre).
    unfold bar_rows, slice_to.
    assert (Hlen : forall l : list (string * Z),
               List.length l = 2%nat ->
               firstn (slice_bound (List.length l) bars) l = l).
    { intros l Hl2. rewrite Hl2. unfold slice_bound.
      destruct (bars <? 0) eqn:E0; [apply Z.ltb_lt in E0; lia|].
      replace (Z.to_nat (Z.min bars (Z.of_nat 2))) with 2%nat by lia.
      rewrite <- Hl2. apply firstn_all. }
    rewrite Hlen
      by (rewrite (Permutation_length (sorted_by_perm _ _ _)); reflexivity).
    unfold sorted_by.
    destruct ascending; simpl; destruct (n1 <=? n2); destruct (n2 <=? n1);
      simpl; now rewrite ?Hl. }
  rewrite Hrows, xlabel_long by assumption.
  split; reflexivity.
Qed.

(** C10 at two file names that differ only after the 14th character. *)
Lemma bar_viz_truncated_labels_collide_witness :
  exists fig label,
    bar_viz (F := xfloat) UniViz_init
            [("category_name_alpha"%string, 3);
             ("category_name_beta_"%string, 5)] [0] "col" 10 false
    = Ok (fig, set_barplot UniViz_init) /\
    label = "category_name_..."%string /\
    bar_x_range fig = [label; label] /\
    map bar_cat (bar_source fig) = [label; label].
Proof.
  apply (@bar_viz_truncated_labels_collide xfloat exact UniViz_init
           "category_name_alpha" "category_name_beta_" 3 5 0 [] "col" 10 false).
  - discriminate.
  - simpl; lia.
  - simpl; lia.
  - reflexivity.
  - lia.
  - left; lia.
Defined.


(* ================================================================== *)
(** * Histogram: rows, percentages and rectangles *)
(* ================================================================== *)

(** Two columns of one table that agree as lists agree row by row. *)
Lemma map_pointwise (A B C : Type) (f : A -> C) (h : A -> B) (g : B -> C)
      (l : list A) :
  map f l = map g (map h l) -> Forall (fun r => f r = g (h r)) l.
Proof.
  induction l as [|r l IH]; simpl; intros E; constructor.
  - now injection E.
  - apply IH. now injection E.
Qed.

Section HistFacts.
Context {F : Type} `{Float64 F}.

Lemma hist_rows_columns (left right : list F) (freq : list Z)
      (percen : list F) :
  List.length left = List.length freq ->
  List.length right = List.length freq ->
  List.length percen = List.length freq ->
  map hist_left (hist_rows left right freq percen) = left /\
  map hist_right (hist_rows left right freq percen) = right /\
  map hist_freq (hist_rows left right freq percen) = freq /\
  map hist_percen (hist_rows left right freq percen) = percen.
Proof.
  revert left right percen.
  induction freq as [|f freq IH]; intros [|l left] [|r right] [|p percen];
    simpl; try discriminate; intros Hl Hr Hp.
  - repeat split.
  - destruct (IH left right percen) as (E1 & E2 & E3 & E4); try lia.
    now rewrite E1, E2, E3, E4.
Qed.

(** [bins_array[:-1]] and [bins_array[1:]] of an array with one edge more
    than there are bins. *)
Lemma slice_edges (n : nat) (edges : list F) :
  List.length edges = S n ->
  slice_to (-1) edges = firstn n edges /\
  slice_from 1 edges = skipn 1 edges /\
  List.length (slice_to (-1) edges) = n /\
  List.length (slice_from 1 edges) = n.
Proof.
  intros Hn. unfold slice_to, slice_from, slice_bound. rewrite Hn.
  replace (-1 <? 0) with true by reflexivity.
  replace (1 <? 0) with false by reflexivity.
  replace (Z.to_nat (Z.max 0 (Z.of_nat (S n) + -1))) with n by lia.
  replace (Z.to_nat (Z.min 1 (Z.of_nat (S n)))) with 1%nat by lia.
  repeat split.
  - rewrite length_firstn. lia.
  - rewrite length_skipn. lia.
Qed.

(** The title of a bar chart or histogram is defined unless a positive
    missing count is divided by a zero total. *)
Lemma missing_title_ok (miss_cnt total : Z) (col_x : string) :
  miss_cnt <= 0 \/ total <> 0 ->
  exists ttl : title F,
    (if miss_cnt >? 0
     then bind (py_truediv miss_cnt total)
               (fun q => Ok (WithMissing col_x (q * of_int 100)%f64))
     else Ok (Plain col_x)) = Ok ttl.
Proof.
  intros Hret.
  destruct (miss_cnt >? 0) eqn:E; [|eauto].
  apply Z.gtb_lt in E. unfold py_truediv.
  destruct (total =? 0) eqn:E0.
  - apply Z.eqb_eq in E0. lia.
  - cbn [bind]. eauto.
Qed.

Lemma missing_title_raises (miss_cnt : Z) (col_x : string) :
  0 < miss_cnt ->
  (if miss_cnt >? 0
   then bind (py_truediv miss_cnt 0)
             (fun q => Ok (WithMissing col_x (q * of_int 100)%f64))
   else Ok (Plain col_x)) = Raise ZeroDivisionError.
Proof.
  intros Hm.
  replace (miss_cnt >? 0) with true by (symmetry; apply Z.gtb_lt; lia).
  reflexivity.
Qed.

(** [hist_viz] on a well-shaped input: it returns, and its table has the
    columns the source builds. *)
Lemma hist_viz_unfold (self : UniViz) (freqs : list Z) (edges : list F)
      (miss_cnt : Z) (rest : list Z) (orig_df_len : Z) (show_y_label : bool)
      (col_x : string) (yscale : axis_type) :
  miss_cnt <= 0 \/ orig_df_len <> 0 ->
  List.length edges = S (List.length freqs) ->
  exists fig,
    hist_viz self (freqs, edges) (miss_cnt :: rest) orig_df_len show_y_label
             col_x yscale
    = Ok (fig, set_hist self) /\
    hist_source fig
    = hist_rows (firstn (List.length freqs) edges) (skipn 1 edges) freqs
                (map (fun f => percent_of f orig_df_len) freqs) /\
    hist_quads fig
    = map (fun r => {| quad_left := hist_left r;
                       quad_right := hist_right r;
                       quad_bottom := lit (1 # 100);
                       quad_top := of_int (hist_freq r) |}) (hist_source fig).
Proof.
  intros Hret Hlen. unfold hist_viz. cbn [getitem0 bind fst snd].
  destruct (missing_title_ok col_x Hret) as (ttl & ->). cbn [bind].
  destruct (slice_edges edges Hlen) as (E1 & E2 & L1 & L2).
  unfold hist_frame, len.
  rewrite L1, L2, length_map, !Z.eqb_refl. cbn [andb bind].
  eexists. split; [reflexivity|].
  cbn [hist_source hist_quads]. rewrite E1, E2.
  split; reflexivity.
Qed.

Lemma nth_error_hist_rows (left right : list F) (freq : list Z)
      (percen : list F) (i : nat) (l r : F) (f : Z) (p : F) :
  nth_error left i = Some l ->
  nth_error right i = Some r ->
  nth_error freq i = Some f ->
  nth_error percen i = Some p ->
  nth_error (hist_rows left right freq percen) i
  = Some {| hist_left := l; hist_right := r;
            hist_freq := f; hist_percen := p |}.
Proof.
  revert left right freq percen.
  induction i as [|i IH];
    intros [|l0 left] [|r0 right] [|f0 freq] [|p0 percen];
    simpl; try discriminate.
  - now intros [= ->] [= ->] [= ->] [= ->].
  - apply IH.
Qed.
End HistFacts.

(** C5.  For every histogram input with [orig_df_len > 0] (one bin edge
    more than bins, a missing count given), [hist_viz] returns a table with
    one row per bin whose percentage is [frequency / orig_df_len * 100]; a
    bin of frequency 0 has percentage 0.  On frequencies [2,3], edges
    [0,1,2], orig_df_len 5, missing [0] the percentages are [40.0, 60.0],
    in exact arithmetic and in binary64. *)
Theorem hist_viz_percentages :
  (forall (self : UniViz) (freqs : list Z) (edges : list xfloat)
          (miss_cnt : Z) (rest : list Z) (orig_df_len : Z)
          (show_y_label : bool) (col_x : string) (yscale : axis_type),
      0 < orig_df_len ->
      len edges = len freqs + 1 ->
      exists fig,
        hist_viz self (freqs, edges) (miss_cnt :: rest) orig_df_len
                 show_y_label col_x yscale
        = Ok (fig, set_hist self) /\
        map hist_freq (hist_source fig) = freqs /\
        Forall (fun r =>
                  hist_percen r
                  = (of_int (hist_freq r) / of_int orig_df_len
                     * of_int 100)%f64 /\
                  xeq (hist_percen r)
                      (Fin (inject_Z (hist_freq r) / inject_Z orig_df_len
                            * 100)) /\
                  (hist_freq r = 0 -> hist_percen r = Fin 0))
               (hist_source fig)) /\
  (exists fig,
      hist_viz (F := xfloat) UniViz_init ([2; 3], [Fin 0; Fin 1; Fin 2]) [0] 5
               true "col" linear
      = Ok (fig, set_hist UniViz_init) /\
      map hist_percen (hist_source fig) = [Fin 40; Fin 60]) /\
  (exists fig,
      hist_viz (F := float) UniViz_init ([2; 3], [0%float; 1%float; 2%float])
               [0] 5 true "col" linear
      = Ok (fig, set_hist UniViz_init) /\
      map hist_percen (hist_source fig) = [40%float; 60%float]).
Proof.
  split; [|split; eexists; split; reflexivity].
  intros self freqs edges miss_cnt rest n show_y col_x yscale Hn Hlen.
  assert (Hlen' : List.length edges = S (List.length freqs))
    by (unfold len in Hlen; lia).
  destruct (hist_viz_unfold self freqs edges (miss_cnt := miss_cnt) rest
              (orig_df_len := n) show_y col_x yscale) as (fig & E & Hsrc & _);
    [right; lia | exact Hlen' |].
  exists fig. split; [exact E|].
  destruct (hist_rows_columns (firstn (List.length freqs) edges)
              (skipn 1 edges) freqs
              (map (fun f => percent_of (F := xfloat) f n) freqs))
    as (_ & _ & Hf & Hp).
  { rewrite length_firstn. lia. }
  { rewrite length_skipn. lia. }
  { apply length_map. }
  rewrite <- Hsrc in Hf, Hp.
  split; [exact Hf|].
  rewrite <- Hf in Hp.
  apply map_pointwise in Hp.
  eapply Forall_impl; [|exact Hp].
  intros r Hr. cbv beta in Hr. rewrite Hr.
  split; [reflexivity|]. split.
  - apply percent_of_value. lia.
  - intros ->. apply percent_of_zero_count. lia.
Qed.

(** The general part of C5 at three bins, the middle one empty. *)
Lemma hist_viz_percentages_witness :
  exists fig,
    hist_viz (F := xfloat) UniViz_init
             ([1; 0; 3], [Fin 0; Fin 1; Fin 2; Fin 3]) [2] 6 true "col" log
    = Ok (fig, set_hist UniViz_init) /\
    map hist_freq (hist_source fig) = [1; 0; 3] /\
    Forall (fun r =>
              hist_percen r
              = (of_int (hist_freq r) / of_int 6 * of_int 100)%f64 /\
              xeq (hist_percen r)
                  (Fin (inject_Z (hist_freq r) / inject_Z 6 * 100)) /\
              (hist_freq r = 0 -> hist_percen r = Fin 0))
           (hist_source fig).
Proof.
  apply (proj1 hist_viz_percentages UniViz_init [1; 0; 3]
           [Fin 0; Fin 1; Fin 2; Fin 3] 2 [] 6 true "col"%string log).
  - lia.
  - reflexivity.
Defined.

(** C6, counterexample.  On frequencies [2,3] over edges [0,1,2] the two
    rectangles are [0,1] x [0.01,2] and [1,2] x [0.01,3]: [figure.quad] is
    called with [bottom=0.01], not 0. *)
Lemma hist_viz_quad_bottom_counterexample :
  (exists fig,
      hist_viz (F := xfloat) UniViz_init ([2; 3], [Fin 0; Fin 1; Fin 2]) [0] 5
               true "col" linear
      = Ok (fig, set_hist UniViz_init) /\
      hist_quads fig
      = [ {| quad_left := Fin 0; quad_right := Fin 1;
             quad_bottom := Fin (1 # 100); quad_top := Fin 2 |};
          {| quad_left := Fin 1; quad_right := Fin 2;
             quad_bottom := Fin (1 # 100); quad_top := Fin 3 |} ]) /\
  (exists fig,
      hist_viz (F := float) UniViz_init ([2; 3], [0%float; 1%float; 2%float])
               [0] 5 true "col" linear
      = Ok (fig, set_hist UniViz_init) /\
      map quad_bottom (hist_quads fig)
      = [0x1.47ae147ae147bp-7%float; 0x1.47ae147ae147bp-7%float]
        (* the double nearest to 0.01 *)) /\
  ~ hist_quad_bottom_claim.
Proof.
  split; [eexists; split; reflexivity|].
  split; [eexists; split; reflexivity|].
  intros claim.
  pose proof (claim UniViz_init [2; 3] [Fin 0; Fin 1; Fin 2] [0] 5 true
                    "col"%string linear _ _ eq_refl) as B.
  simpl in B. inversion B as [|q l Hq _]; subst.
  unfold Qeq in Hq. simpl in Hq. discriminate.
Qed.

(** C6, amended.  For every histogram input on which [hist_viz] returns,
    it draws one rectangle per bin, and the i-th rectangle spans
    [left_i, right_i] horizontally (the i-th and (i+1)-th bin edges) and
    [0.01, frequency_i] vertically: the bottom coordinate is the constant
    0.01. *)
Theorem hist_viz_quads
  (F : Type) (FF : Float64 F) (self : UniViz) (freqs : list Z)
  (edges : list F) (miss_cnt : Z) (rest : list Z) (orig_df_len : Z)
  (show_y_label : bool) (col_x : string) (yscale : axis_type) :
  miss_cnt <= 0 \/ orig_df_len <> 0 ->
  len edges = len freqs + 1 ->
  exists fig,
    hist_viz self (freqs, edges) (miss_cnt :: rest) orig_df_len show_y_label
             col_x yscale
    = Ok (fig, set_hist self) /\
    len (hist_quads fig) = len freqs /\
    forall (i : nat) (l r : F) (f : Z),
      nth_error edges i = Some l ->
      nth_error edges (S i) = Some r ->
      nth_error freqs i = Some f ->
      nth_error (hist_quads fig) i
      = Some {| quad_left := l; quad_right := r;
                quad_bottom := lit (1 # 100); quad_top := of_int f |}.
Proof.
  intros Hret Hlen.
  assert (Hlen' : List.length edges = S (List.length freqs))
    by (unfold len in Hlen; lia).
  destruct (hist_viz_unfold self freqs edges rest show_y_label col_x yscale
              Hret Hlen') as (fig & E & Hsrc & Hq).
  exists fig. split; [exact E|].
  destruct (hist_rows_columns (firstn (List.length freqs) edges)
              (skipn 1 edges) freqs
              (map (fun f => percent_of f orig_df_len) freqs))
    as (_ & _ & Hf & _).
  { rewrite length_firstn. lia. }
  { rewrite length_skipn. lia. }
  { apply length_map. }
  rewrite <- Hsrc in Hf.
  split.
  - unfold len. rewrite Hq, length_map.
    rewrite <- Hf. now rewrite length_map.
  - intros i l r f Hl Hr Hfi.
    assert (Hrow : nth_error (hist_source fig) i
                   = Some {| hist_left := l; hist_right := r; hist_freq := f;
                             hist_percen := percent_of f orig_df_len |}).
    { rewrite Hsrc. apply nth_error_hist_rows.
      - rewrite nth_error_firstn.
        assert (Hi : (i < List.length freqs)%nat)
          by (apply nth_error_Some; congruence).
        apply PeanoNat.Nat.ltb_lt in Hi. now rewrite Hi.
      - rewrite nth_error_skipn. exact Hr.
      - exact Hfi.
      - now rewrite nth_error_map, Hfi. }
    rewrite Hq, nth_error_map, Hrow. reflexivity.
Qed.

(** The amended C6 on two bins over the edges [0, 1/2, 1]. *)
Lemma hist_viz_quads_witness :
  exists fig,
    hist_viz (F := xfloat) UniViz_init ([4; 6], [Fin 0; Fin (1 # 2); Fin 1])
             [0] 10 false "col" linear
    = Ok (fig, set_hist UniViz_init) /\
    len (hist_quads fig) = len [4; 6] /\
    forall (i : nat) (l r : xfloat) (f : Z),
      nth_error [Fin 0; Fin (1 # 2); Fin 1] i = Some l ->
      nth_error [Fin 0; Fin (1 # 2); Fin 1] (S i) = Some r ->
      nth_error [4; 6] i = Some f ->
      nth_error (hist_quads fig) i
      = Some {| quad_left := l; quad_right := r;
                quad_bottom := lit (1 # 100); quad_top := of_int f |}.
Proof.
  apply (@hist_viz_quads xfloat exact UniViz_init [4; 6]
           [Fin 0; Fin (1 # 2); Fin 1] 0 [] 10 false "col"%string linear).
  - left; lia.
  - reflexivity.
Defined.

(* ================================================================== *)
(** * QQ-norm plot: the reference line *)
(* ================================================================== *)

(** [xleb] orders the values that are not [nan]. *)
Lemma xleb_refl (x : xfloat) : xisnan x = false -> xleb x x = true.
Proof.
  destruct x; simpl; try reflexivity; try discriminate.
  intros _. apply Qle_bool_iff, Qle_refl.
Qed.

Lemma xleb_trans (x y z : xfloat) :
  xleb x y = true -> xleb y z = true -> xleb x z = true.
Proof.
  destruct x, y, z; simpl; try reflexivity; try discriminate.
  rewrite !Qle_bool_iff. apply Qle_trans.
Qed.

Lemma xleb_total (x y : xfloat) :
  xisnan x = false -> xisnan y = false -> xleb x y = false ->
  xleb y x = true.
Proof.
  destruct x, y; simpl; try reflexivity; try discriminate.
  intros _ _ E. apply Qle_bool_iff.
  destruct (Qlt_le_dec q0 q) as [L|L].
  - now apply Qlt_le_weak.
  - exfalso. apply Qle_bool_iff in L. congruence.
Qed.

Lemma xminimum_spec (x y : xfloat) :
  xisnan x = false -> xisnan y = false ->
  (xminimum x y = x \/ xminimum x y = y) /\
  xleb (xminimum x y) x = true /\ xleb (xminimum x y) y = true.
Proof.
  intros Hx Hy.
  assert (E : xminimum x y = if xleb x y then x else y)
    by (destruct x, y; try discriminate; reflexivity).
  rewrite E. destruct (xleb x y) eqn:L.
  - repeat split; [now left | now apply xleb_refl | exact L].
  - repeat split; [now right | now apply xleb_total | now apply xleb_refl].
Qed.

Lemma xmaximum_spec (x y : xfloat) :
  xisnan x = false -> xisnan y = false ->
  (xmaximum x y = x \/ xmaximum x y = y) /\
  xleb x (xmaximum x y) = true /\ xleb y (xmaximum x y) = true.
Proof.
  intros Hx Hy.
  assert (E : xmaximum x y = if xleb x y then y else x)
    by (destruct x, y; try discriminate; reflexivity).
  rewrite E. destruct (xleb x y) eqn:L.
  - repeat split; [now right | exact L | now apply xleb_refl].
  - repeat split; [now left | now apply xleb_refl | now apply xleb_total].
Qed.

(** Without [nan], folding [np.minimum] finds the least element. *)
Lemma fold_minimum_least (a : list xfloat) (x : xfloat) :
  Forall (fun v => xisnan v = false) (x :: a) ->
  In (fold_left xminimum a x) (x :: a) /\
  forall v, In v (x :: a) -> xleb (fold_left xminimum a x) v = true.
Proof.
  revert x. induction a as [|y a IH]; intros x Hn.
  - inversion Hn; subst. simpl. split; [now left|].
    intros v [<-|[]]. now apply xleb_refl.
  - inversion Hn as [|? ? Hx Hya]; subst.
    inversion Hya as [|? ? Hy Ha]; subst.
    destruct (xminimum_spec x y Hx Hy) as (Hsel & Lx & Ly).
    assert (Hm : xisnan (xminimum x y) = false)
      by (destruct Hsel as [-> | ->]; assumption).
    destruct (IH (xminimum x y)) as (Hin & Hle); [now constructor|].
    cbn [fold_left]. split.
    + destruct Hin as [E|Hin].
      * rewrite <- E. destruct Hsel as [-> | ->]; simpl; auto.
      * right; right; exact Hin.
    + intros v [<-|[<-|Hv]].
      * eapply xleb_trans; [apply Hle; now left | exact Lx].
      * eapply xleb_trans; [apply Hle; now left | exact Ly].
      * apply Hle. now right.
Qed.

Lemma fold_maximum_greatest (a : list xfloat) (x : xfloat) :
  Forall (fun v => xisnan v = false) (x :: a) ->
  In (fold_left xmaximum a x) (x :: a) /\
  forall v, In v (x :: a) -> xleb v (fold_left xmaximum a x) = true.
Proof.
  revert x. induction a as [|y a IH]; intros x Hn.
  - inversion Hn; subst. simpl. split; [now left|].
    intros v [<-|[]]. now apply xleb_refl.
  - inversion Hn as [|? ? Hx Hya]; subst.
    inversion Hya as [|? ? Hy Ha]; subst.
    destruct (xmaximum_spec x y Hx Hy) as (Hsel & Lx & Ly).
    assert (Hm : xisnan (xmaximum x y) = false)
      by (destruct Hsel as [-> | ->]; assumption).
    destruct (IH (xmaximum x y)) as (Hin & Hle); [now constructor|].
    cbn [fold_left]. split.
    + destruct Hin as [E|Hin].
      * rewrite <- E. destruct Hsel as [-> | ->]; simpl; auto.
      * right; right; exact Hin.
    + intros v [<-|[<-|Hv]].
      * eapply xleb_trans; [exact Lx | apply Hle; now left].
      * eapply xleb_trans; [exact Ly | apply Hle; now left].
      * apply Hle. now right.
Qed.

(** One [nan] makes both folds [nan]. *)
Lemma fold_minimum_nan (a : list xfloat) (x : xfloat) :
  Exists (fun v => xisnan v = true) (x :: a) -> fold_left xminimum a x = NaN.
Proof.
  revert x. induction a as [|y a IH]; intros x Hn; cbn [fold_left].
  - inversion Hn as [? ? Hx|? ? Hx]; subst; [|inversion Hx].
    destruct x; try discriminate; reflexivity.
  - apply IH. inversion Hn as [? ? Hx|? ? Hx]; subst.
    + left. destruct x; try discriminate; reflexivity.
    + inversion Hx as [? ? Hy|? ? Hy]; subst.
      * left. destruct y; try discriminate. now destruct x.
      * now right.
Qed.

Lemma fold_maximum_nan (a : list xfloat) (x : xfloat) :
  Exists (fun v => xisnan v = true) (x :: a) -> fold_left xmaximum a x = NaN.
Proof.
  revert x. induction a as [|y a IH]; intros x Hn; cbn [fold_left].
  - inversion Hn as [? ? Hx|? ? Hx]; subst; [|inversion Hx].
    destruct x; try discriminate; reflexivity.
  - apply IH. inversion Hn as [? ? Hx|? ? Hx]; subst.
    + left. destruct x; try discriminate; reflexivity.
    + inversion Hx as [? ? Hy|? ? Hy]; subst.
      * left. destruct y; try discriminate. now destruct x.
      * now right.
Qed.

(** C7.  For every QQ-norm input with non-empty theory and sample arrays,
    [qqnorm_viz] returns, and its reference line runs from (m, m) to
    (M, M), m and M being [np.min] and [np.max] of the two arrays
    concatenated: the least and the greatest value among all quantiles
    (and [nan], as numpy has it, when a quantile is [nan]). *)
Theorem qqnorm_viz_reference_line
  (self : UniViz) (in_data : list (string * list xfloat)) (col_x : string)
  (theory sample : list xfloat) :
  getitem in_data "theory" = Ok theory ->
  getitem in_data "sample" = Ok sample ->
  theory <> [] ->
  sample <> [] ->
  exists fig m M,
    qqnorm_viz self in_data col_x = Ok (fig, set_qqnorm self) /\
    qq_line_x fig = [m; M] /\
    qq_line_y fig = [m; M] /\
    np_min (theory ++ sample) = Ok m /\
    np_max (theory ++ sample) = Ok M /\
    (Forall (fun v => xisnan v = false) (theory ++ sample) ->
     In m (theory ++ sample) /\ In M (theory ++ sample) /\
     forall v, In v (theory ++ sample) ->
               xleb m v = true /\ xleb v M = true) /\
    (Exists (fun v => xisnan v = true) (theory ++ sample) ->
     m = NaN /\ M = NaN).
Proof.
  intros Ht Hs Hne _.
  unfold qqnorm_viz. rewrite Ht, Hs. cbn [bind].
  destruct theory as [|x theory]; [contradiction|].
  cbn [app np_min np_max bind].
  eexists _, (fold_left fminimum (theory ++ sample) x),
          (fold_left fmaximum (theory ++ sample) x).
  split; [reflexivity|]. cbn [qq_line_x qq_line_y].
  repeat split; try reflexivity.
  - now apply (@fold_minimum_least (theory ++ sample) x).
  - now apply (@fold_maximum_greatest (theory ++ sample) x).
  - now apply (@fold_minimum_least (theory ++ sample) x).
  - now apply (@fold_maximum_greatest (theory ++ sample) x).
  - now apply (@fold_minimum_nan (theory ++ sample) x).
  - now apply (@fold_maximum_nan (theory ++ sample) x).
Qed.

(** C7 at theory [-1, 0, 1] and sample [1/2, 3, -2]: the line runs from
    (-2, -2) to (3, 3). *)
Lemma qqnorm_viz_reference_line_witness :
  exists fig m M,
    qqnorm_viz UniViz_init
               [("theory"%string, [Fin (-1); Fin 0; Fin 1]);
                ("sample"%string, [Fin (1 # 2); Fin 3; Fin (-2)])] "col"
    = Ok (fig, set_qqnorm UniViz_init) /\
    qq_line_x fig = [m; M] /\
    qq_line_y fig = [m; M] /\
    np_min ([Fin (-1); Fin 0; Fin 1] ++ [Fin (1 # 2); Fin 3; Fin (-2)])
    = Ok m /\
    np_max ([Fin (-1); Fin 0; Fin 1] ++ [Fin (1 # 2); Fin 3; Fin (-2)])
    = Ok M /\
    (Forall (fun v => xisnan v = false)
            ([Fin (-1); Fin 0; Fin 1] ++ [Fin (1 # 2); Fin 3; Fin (-2)]) ->
     In m ([Fin (-1); Fin 0; Fin 1] ++ [Fin (1 # 2); Fin 3; Fin (-2)]) /\
     In M ([Fin (-1); Fin 0; Fin 1] ++ [Fin (1 # 2); Fin 3; Fin (-2)]) /\
     forall v,
       In v ([Fin (-1); Fin 0; Fin 1] ++ [Fin (1 # 2); Fin 3; Fin (-2)]) ->
       xleb m v = true /\ xleb v M = true) /\
    (Exists (fun v => xisnan v = true)
            ([Fin (-1); Fin 0; Fin 1] ++ [Fin (1 # 2); Fin 3; Fin (-2)]) ->
     m = NaN /\ M = NaN).
Proof.
  apply (@qqnorm_viz_reference_line UniViz_init
           [("theory"%string, [Fin (-1); Fin 0; Fin 1]);
            ("sample"%string, [Fin (1 # 2); Fin 3; Fin (-2)])] "col"%string
           [Fin (-1); Fin 0; Fin 1] [Fin (1 # 2); Fin 3; Fin (-2)]).
  - reflexivity.
  - reflexivity.
  - discriminate.
  - discriminate.
Defined.

(* ================================================================== *)
(** * Box plot: positions and box geometry *)
(* ================================================================== *)

Section BoxFacts.
Context {F : Type} `{Float64 F}.

Lemma enumerate_from_fst (A : Type) (l : list A) (k : nat) :
  map fst (enumerate_from (Z.of_nat k) l)
  = map Z.of_nat (seq k (List.length l)).
Proof.
  revert k. induction l as [|a l IH]; intros k; simpl; [reflexivity|].
  f_equal. replace (Z.of_nat k + 1) with (Z.of_nat (S k)) by lia.
  apply IH.
Qed.

Lemma enumerate_from_snd (A : Type) (l : list A) (i : Z) :
  map snd (enumerate_from i l) = l.
Proof.
  revert i. induction l as [|a l IH]; intros i; simpl; [reflexivity|].
  f_equal. apply IH.
Qed.

Lemma column_ok (key : string) (get : five_num -> option F)
      (data : list (string * five_num)) :
  data <> [] ->
  Forall (fun r => is_some (get (snd r)) = true) data ->
  column key get data = Ok (map (fun r => cell (get (snd r))) data).
Proof.
  intros Hne Hall. unfold column.
  destruct data as [|r data]; [contradiction|].
  inversion Hall as [|? ? Hr _]; subst.
  simpl. now rewrite Hr.
Qed.

Lemma outlier_glyphs_ok (has_column : bool)
      (data : list (string * five_num)) (i : Z) :
  Forall (fun r => is_some (outliers (snd r)) = true) data ->
  exists glyphs,
    outlier_glyphs has_column (enumerate_from i data) = Ok glyphs.
Proof.
  revert i. induction data as [|[c r] data IH]; intros i Hall; simpl.
  - eauto.
  - inversion Hall as [|? ? Hr Hrest]; subst. simpl in Hr.
    destruct (outliers r) as [ys|]; [|discriminate].
    destruct (IH (i + 1) Hrest) as (g & ->). cbn [bind]. eauto.
Qed.
End BoxFacts.

(** C8.  For every box-plot input with N >= 1 categories whose summaries
    have the keys "tf", "sf" and "outliers", [box_viz] returns a table with
    the categories in input order at the x positions 1, 2, ..., N, and the
    box of each category has height [sf - tf] and is centred vertically at
    [(tf + sf) / 2]; on finite values these are the exact difference and
    midpoint. *)
Theorem box_viz_positions_and_heights :
  (forall (F : Type) (FF : Float64 F) (self : UniViz)
          (data : list (string * five_num)) (col_x : string)
          (col_y : option string) (box_width : F),
      data <> [] ->
      Forall (fun r => has_box_keys (snd r)) data ->
      exists fig,
        box_viz self data col_x col_y box_width = Ok (fig, set_box self) /\
        map box_cat (box_source fig) = map fst data /\
        map box_x (box_source fig)
        = map Z.of_nat (seq 1 (List.length data)) /\
        Forall2 (fun row d =>
                   forall t s : F,
                     tf (snd d) = Some t -> sf (snd d) = Some s ->
                     box_h row = (s - t)%f64 /\
                     box_y row = ((t + s) / of_int 2)%f64)
                (box_source fig) data) /\
  (forall t s : Q,
      xeq (Fin s - Fin t)%f64 (Fin (s - t)) /\
      xeq ((Fin t + Fin s) / of_int 2)%f64 (Fin ((t + s) / 2))).
Proof.
  split.
  - intros F FF self data col_x col_y box_width Hne Hkeys.
    unfold box_viz.
    rewrite (column_ok "tf" tf Hne)
      by (eapply Forall_impl; [|exact Hkeys]; now intros r (? & ? & ?)).
    rewrite (column_ok "sf" sf Hne)
      by (eapply Forall_impl; [|exact Hkeys]; now intros r (? & ? & ?)).
    cbn [bind].
    destruct (outlier_glyphs_ok
                (existsb (fun r => is_some (outliers (snd r))) data) (data := data) 1)
      as (glyphs & ->);
      [eapply Forall_impl; [|exact Hkeys]; now intros r (? & ? & ?)|].
    cbn [bind]. eexists. split; [reflexivity|].
    cbn [box_source].
    rewrite !map_map. cbn [box_cat box_x].
    split; [|split].
    + rewrite <- (enumerate_from_snd data 1) at 2.
      now rewrite map_map.
    + change 1 with (Z.of_nat 1).
      rewrite <- enumerate_from_fst. reflexivity.
    + clear. generalize 1 as i.
      induction data as [|[c r] data IH]; intros i; simpl; constructor.
      * simpl. intros t s -> ->. split; reflexivity.
      * apply IH.
  - intros t s. split.
    + change (Qred (s + Qred (- t)) == s - t)%Q.
      rewrite !Qred_correct. reflexivity.
    + change (Qred (Qred (t + s) / inject_Z 2) == (t + s) / 2)%Q.
      rewrite !Qred_correct. reflexivity.
Qed.

(** The general part of C8 at two categories. *)
Lemma box_viz_positions_and_heights_witness :
  exists fig,
    box_viz (F := xfloat) UniViz_init
            [("a"%string,
              {| lw := Some (Fin 0); tf := Some (Fin 1); fy := Some (Fin 2);
                 sf := Some (Fin 4); uw := Some (Fin 5);
                 outliers := Some [Fin 9] |});
             ("b"%string,
              {| lw := Some (Fin 1); tf := Some (Fin 2); fy := Some (Fin 3);
                 sf := Some (Fin 5); uw := Some (Fin 6);
                 outliers := Some [] |})]
            "col" None default_box_width
    = Ok (fig, set_box UniViz_init) /\
    map box_cat (box_source fig) = ["a"%string; "b"%string] /\
    map box_x (box_source fig) = [1; 2] /\
    Forall2 (fun row d =>
               forall t s : xfloat,
                 tf (snd d) = Some t -> sf (snd d) = Some s ->
                 box_h row = (s - t)%f64 /\
                 box_y row = ((t + s) / of_int 2)%f64)
            (box_source fig)
            [("a"%string,
              {| lw := Some (Fin 0); tf := Some (Fin 1); fy := Some (Fin 2);
                 sf := Some (Fin 4); uw := Some (Fin 5);
                 outliers := Some [Fin 9] |});
             ("b"%string,
              {| lw := Some (Fin 1); tf := Some (Fin 2); fy := Some (Fin 3);
                 sf := Some (Fin 5); uw := Some (Fin 6);
                 outliers := Some [] |})].
Proof.
  apply (proj1 box_viz_positions_and_heights xfloat exact UniViz_init
           [("a"%string,
             {| lw := Some (Fin 0); tf := Some (Fin 1); fy := Some (Fin 2);
                sf := Some (Fin 4); uw := Some (Fin 5);
                outliers := Some [Fin 9] |});
            ("b"%string,
             {| lw := Some (Fin 1); tf := Some (Fin 2); fy := Some (Fin 3);
                sf := Some (Fin 5); uw := Some (Fin 6);
                outliers := Some [] |})]
           "col"%string None default_box_width).
  - discriminate.
  - repeat constructor.
Defined.

(* ================================================================== *)
(** * Where failures surface *)
(* ================================================================== *)

Lemma Forall_of_map (A B C : Type) (f : A -> C) (g : B -> C) (P : C -> Prop)
      (l : list A) (l' : list B) :
  map f l = map g l' -> (forall b, P (g b)) -> Forall (fun r => P (f r)) l.
Proof.
  intros E Hg. revert l' E.
  induction l as [|r l IH]; intros [|b l'] E; try discriminate; constructor.
  - simpl in E. injection E as -> _. apply Hg.
  - simpl in E. injection E as _ E. exact (IH l' E).
Qed.

(** C4, counterexample.  [pie_viz] on the empty mapping returns a chart
    without wedges; on {"a": 0} it returns a chart whose percentage is
    [nan]; [hist_viz] on frequencies [2,0] with [orig_df_len = 0] and no
    missing values returns a chart whose percentages are [inf] and [nan].
    None of the three calls fails. *)
Lemma viz_zero_denominator_counterexample :
  (exists fig,
      pie_viz (F := xfloat) UniViz_init [] "col" 5 false
      = Ok (fig, set_pie UniViz_init) /\
      pie_source fig = []) /\
  (exists fig,
      pie_viz (F := xfloat) UniViz_init [("a"%string, Some 0)] "col" 5 false
      = Ok (fig, set_pie UniViz_init) /\
      map pie_percen (pie_source fig) = [NaN]) /\
  (exists fig,
      hist_viz (F := xfloat) UniViz_init ([2; 0], [Fin 0; Fin 1; Fin 2]) [0] 0
               true "col" linear
      = Ok (fig, set_hist UniViz_init) /\
      map hist_percen (hist_source fig) = [PInf; NaN]) /\
  (exists fig,
      hist_viz (F := float) UniViz_init ([2; 0], [0%float; 1%float; 2%float])
               [0] 0 true "col" linear
      = Ok (fig, set_hist UniViz_init) /\
      map hist_percen (hist_source fig) = [infinity; PrimFloat.nan]) /\
  ~ surfaces_failure_claim.
Proof.
  split; [eexists; split; reflexivity|].
  split; [eexists; split; reflexivity|].
  split; [eexists; split; reflexivity|].
  split; [eexists; split; reflexivity|].
  intros [claim _].
  specialize (claim UniViz_init [] "col"%string 5 false (or_introl eq_refl)).
  discriminate claim.
Qed.

(** C4, amended.  The operations do not check their input; a failure
    reaches the caller only where Python or numpy raises by itself.
    [bar_viz] and [hist_viz] with a zero denominator raise
    [ZeroDivisionError] when the missing count is positive (the title
    divides two Python ints); [qqnorm_viz] and [hist_kde_viz] raise on empty
    arrays ([np.min] of nothing) and [box_viz] on an empty mapping (no
    column "tf").  Otherwise a chart is returned: [pie_viz] never raises (an
    empty mapping gives a chart without wedges when [bars >= 0], a zero
    total gives percentages none of which is finite), and [bar_viz] and
    [hist_viz] with a zero denominator and no missing values return
    percentages none of which is finite. *)
Theorem viz_failures_come_from_python_only :
  (forall (self : UniViz) (data : list (string * option Z)) (col_x : string)
          (bars : Z) (ascending : bool),
      exists fig,
        pie_viz (F := xfloat) self data col_x bars ascending
        = Ok (fig, set_pie self) /\
        (dropna data = [] -> 0 <= bars -> pie_source fig = []) /\
        (zsum (counts (dropna data)) = 0 ->
         Forall (fun r => ~ xfinite (pie_percen r)) (pie_source fig))) /\
  (forall (self : UniViz) (data : list (string * Z)) (miss_cnt : Z)
          (rest : list Z) (col_x : string) (bars : Z) (ascending : bool),
      zsum (map snd data) + miss_cnt = 0 ->
      (0 < miss_cnt ->
       bar_viz (F := xfloat) self data (miss_cnt :: rest) col_x bars ascending
       = Raise ZeroDivisionError) /\
      (miss_cnt <= 0 ->
       exists fig,
         bar_viz (F := xfloat) self data (miss_cnt :: rest) col_x bars
                 ascending
         = Ok (fig, set_barplot self) /\
         Forall (fun r => ~ xfinite (bar_percen r)) (bar_source fig))) /\
  (forall (self : UniViz) (freqs : list Z) (edges : list xfloat)
          (miss_cnt : Z) (rest : list Z) (show_y_label : bool)
          (col_x : string) (yscale : axis_type),
      (0 < miss_cnt ->
       hist_viz self (freqs, edges) (miss_cnt :: rest) 0 show_y_label col_x
                yscale
       = Raise ZeroDivisionError) /\
      (miss_cnt <= 0 -> len edges = len freqs + 1 ->
       exists fig,
         hist_viz self (freqs, edges) (miss_cnt :: rest) 0 show_y_label col_x
                  yscale
         = Ok (fig, set_hist self) /\
         Forall (fun r => ~ xfinite (hist_percen r)) (hist_source fig))) /\
  (forall (self : UniViz) (in_data : list (string * list xfloat))
          (col_x : string),
      getitem in_data "theory" = Ok [] ->
      getitem in_data "sample" = Ok [] ->
      qqnorm_viz self in_data col_x = Raise ValueError) /\
  (forall (np_histogram : list xfloat -> result (list xfloat * list xfloat))
          (np_linspace : xfloat -> xfloat -> Z -> list xfloat)
          (gaussian_kde : list xfloat -> xfloat
                          -> result (list xfloat -> list xfloat))
          (self : UniViz) (bandwidth : xfloat) (col_x : string),
      is_ok (hist_kde_viz np_histogram np_linspace gaussian_kde self []
                          bandwidth col_x) = false) /\
  (forall (self : UniViz) (col_x : string) (col_y : option string)
          (box_width : xfloat),
      box_viz self [] col_x col_y box_width = Raise (KeyError "tf")).
Proof.
  split; [|split; [|split; [|split; [|split]]]].
  - intros self data col_x bars ascending.
    destruct (pie_viz_unfold (F := xfloat) self data col_x bars ascending)
      as (fig & E & Hrows & Hper).
    exists fig. split; [exact E|]. split.
    + intros Hd Hb. unfold pie_rows in Hrows. rewrite Hd in Hrows.
      assert (Hs : sort_values ascending [] = []) by (now destruct ascending).
      rewrite Hs in Hrows. change (len (@nil (string * Z))) with 0 in Hrows.
      replace (0 >? bars) with false in Hrows
        by (symmetry; rewrite Z.gtb_ltb; apply Z.ltb_ge; lia).
      now apply map_eq_nil in Hrows.
    + intros Ht. rewrite Ht in Hper.
      apply (Forall_of_map _ _ (fun p => ~ xfinite p) _ _ Hper).
      apply percent_of_zero_total_not_finite.
  - intros self data miss_cnt rest col_x bars ascending Ht. split.
    + intros Hm. unfold bar_viz. cbn [getitem0 bind].
      rewrite Ht. now rewrite missing_title_raises.
    + intros Hm.
      destruct (bar_viz_unfold (F := xfloat) self data rest col_x bars
                  ascending (or_introl Hm)) as (fig & E & _ & _ & _ & Hper).
      exists fig. split; [exact E|].
      rewrite Ht in Hper.
      apply (Forall_of_map _ _ (fun p => ~ xfinite p) _ _ Hper).
      intros b. apply percent_of_zero_total_not_finite.
  - intros self freqs edges miss_cnt rest show_y col_x yscale. split.
    + intros Hm. unfold hist_viz. cbn [getitem0 bind fst snd].
      now rewrite missing_title_raises.
    + intros Hm Hlen.
      assert (Hlen' : List.length edges = S (List.length freqs))
        by (unfold len in Hlen; lia).
      destruct (hist_viz_unfold self freqs edges (miss_cnt := miss_cnt) rest
                  (orig_df_len := 0) show_y col_x yscale)
        as (fig & E & Hsrc & _); [left; exact Hm | exact Hlen' |].
      exists fig. split; [exact E|].
      destruct (hist_rows_columns (firstn (List.length freqs) edges)
                  (skipn 1 edges) freqs
                  (map (fun f => percent_of (F := xfloat) f 0) freqs))
        as (_ & _ & _ & Hp).
      { rewrite length_firstn. lia. }
      { rewrite length_skipn. lia. }
      { apply length_map. }
      rewrite <- Hsrc in Hp.
      apply (Forall_of_map _ _ (fun p => ~ xfinite p) _ _ Hp).
      apply percent_of_zero_total_not_finite.
  - intros self in_data col_x Ht Hs. unfold qqnorm_viz.
    now rewrite Ht, Hs.
  - intros np_histogram np_linspace gaussian_kde self bandwidth col_x.
    unfold hist_kde_viz. cbn [filter].
    destruct (np_histogram []); reflexivity.
  - reflexivity.
Qed.

(** The amended C4 where a failure does surface: three missing values and
    [orig_df_len = 0]. *)
Lemma viz_failures_come_from_python_only_witness :
  hist_viz (F := xfloat) UniViz_init ([1], [Fin 0; Fin 1]) [3] 0 true "col"
           linear
  = Raise ZeroDivisionError.
Proof.
  apply (proj1 (proj1 (proj2 (proj2 viz_failures_come_from_python_only))
                      UniViz_init [1] [Fin 0; Fin 1] 3 [] true "col"%string
                      linear)).
  lia.
Defined.

(* ================================================================== *)
(** * The render-success flags *)
(* ================================================================== *)

Lemma get_set_flag_same (f : flag) (self : UniViz) :
  get_flag f (set_flag f self) = true.
Proof. now destruct f. Qed.

Lemma get_set_flag_other (f g : flag) (self : UniViz) :
  f <> g -> get_flag f (set_flag g self) = get_flag f self.
Proof. destruct f, g; intros N; try reflexivity; now elim N. Qed.

Section CallFacts.
Context {F : Type} `{Float64 F}.
Variable np_histogram : list F -> result (list F * list F).
Variable np_linspace : F -> F -> Z -> list F.
Variable gaussian_kde : list F -> F -> result (list F -> list F).

Local Abbreviation run := (run np_histogram np_linspace gaussian_kde).
Local Abbreviation run_all := (run_all np_histogram np_linspace gaussian_kde).

(** Destructs the computations a method binds, one after the other. *)
Ltac step_binds :=
  repeat match goal with
         | |- context [bind ?m _] => destruct m; cbn [bind outcome]
         | |- context [if ?b then _ else _] => destruct b; cbn [bind outcome]
         end.

(** A method that returns has set its own flag and nothing else; one that
    raises has changed nothing. *)
Lemma run_cases (self : UniViz) (c : call) :
  run self c = (set_flag (flag_of c) self, true) \/ run self c = (self, false).
Proof.
  destruct c; cbn [run flag_of set_flag].
  - left. reflexivity.
  - unfold bar_viz. step_binds; auto.
  - unfold hist_viz, hist_frame. step_binds; auto.
  - unfold qqnorm_viz. step_binds; auto.
  - unfold hist_kde_viz, kde_frame. step_binds; auto.
  - unfold box_viz. step_binds; auto.
Qed.

Lemma run_monotone (self : UniViz) (c : call) (f : flag) :
  get_flag f self = true -> get_flag f (fst (run self c)) = true.
Proof.
  intros Hf. destruct (run_cases self c) as [-> | ->]; [|exact Hf].
  cbn [fst]. destruct f, (flag_of c); exact Hf || reflexivity.
Qed.

Lemma run_frame (self : UniViz) (c : call) (f : flag) :
  f <> flag_of c -> get_flag f (fst (run self c)) = get_flag f self.
Proof.
  intros Hf. destruct (run_cases self c) as [-> | ->]; [|reflexivity].
  cbn [fst]. now apply get_set_flag_other.
Qed.

(** C9.  A call that returns has set the flag of its own chart type to
    [True]; no call changes the flag of another chart type, and no call
    sets a flag back to [False] (a call that raises changes nothing).  So
    over any sequence of calls every flag that was set stays set, and the
    flags of the chart types that were not invoked are unchanged. *)
Theorem flags_only_set_by_own_operation :
  (forall (self : UniViz) (c : call),
      snd (run self c) = true ->
      get_flag (flag_of c) (fst (run self c)) = true) /\
  (forall (self : UniViz) (c : call),
      snd (run self c) = false -> fst (run self c) = self) /\
  (forall (self : UniViz) (c : call) (f : flag),
      f <> flag_of c -> get_flag f (fst (run self c)) = get_flag f self) /\
  (forall (calls : list call) (self : UniViz) (f : flag),
      get_flag f self = true -> get_flag f (run_all self calls) = true) /\
  (forall (calls : list call) (self : UniViz) (f : flag),
      ~ In f (map flag_of calls) ->
      get_flag f (run_all self calls) = get_flag f self).
Proof.
  split; [|split; [|split; [|split]]].
  - intros self c. destruct (run_cases self c) as [-> | ->]; cbn [fst snd].
    + intros _. apply get_set_flag_same.
    + discriminate.
  - intros self c. destruct (run_cases self c) as [-> | ->]; cbn [fst snd].
    + discriminate.
    + reflexivity.
  - intros self c f. apply run_frame.
  - induction calls as [|c calls IH]; intros self f Hf; [exact Hf|].
    cbn [run_all fold_left]. apply IH. now apply run_monotone.
  - induction calls as [|c calls IH]; intros self f Hf; [reflexivity|].
    cbn [run_all fold_left].
    fold (run_all (fst (run self c)) calls).
    rewrite IH by (intros Hin; apply Hf; now right).
    apply run_frame. intros ->. apply Hf. now left.
Qed.
End CallFacts.

(** C9 on a concrete session: a pie chart, a histogram whose title
    division fails, and a bar chart leave exactly [pie] and [barplot]
    set. *)
Lemma flags_only_set_by_own_operation_witness :
  run_all (F := xfloat)
          (fun _ => Raise LibraryError) (fun _ _ _ => [])
          (fun _ _ => Raise LibraryError)
          UniViz_init
          [CallPie [("a"%string, Some 1)] "col" 5 false;
           CallHist ([1], [Fin 0; Fin 1]) [3] 0 true "col" linear;
           CallBar [("a"%string, 1)] [0] "col" 5 false]
  = {| pie := true; barplot := true; box := false;
       hist := false; qqnorm := false; kde := false |} /\
  get_flag FBox
           (run_all (F := xfloat)
                    (fun _ => Raise LibraryError) (fun _ _ _ => [])
                    (fun _ _ => Raise LibraryError)
                    UniViz_init
                    [CallPie [("a"%string, Some 1)] "col" 5 false;
                     CallHist ([1], [Fin 0; Fin 1]) [3] 0 true "col" linear;
                     CallBar [("a"%string, 1)] [0] "col" 5 false])
  = get_flag FBox UniViz_init.
Proof.
  split; [reflexivity|].
  apply (proj2 (proj2 (proj2 (proj2
           (@flags_only_set_by_own_operation xfloat exact
              (fun _ => Raise LibraryError) (fun _ _ _ => [])
              (fun _ _ => Raise LibraryError)))))).
  simpl. intros [E|[E|[E|[]]]]; discriminate E.
Defined.

(* ================================================================== *)
(** * Further properties: bar chart labels *)
(* ================================================================== *)





(* ================================================================== *)
(** * Further properties: bar chart *)
(* ================================================================== *)

Lemma StronglySorted_app_inv (A : Type) (R : A -> A -> Prop) (l1 l2 : list A) :
  StronglySorted R (l1 ++ l2) ->
  StronglySorted R l1 /\ StronglySorted R l2 /\
  forall x y, In x l1 -> In y l2 -> R x y.
Proof.
  induction l1 as [|a l1 IH]; simpl; intros S.
  - repeat split; [constructor | exact S | intros ? ? []].
  - inversion S as [|? ? S' Ha]; subst.
    destruct (IH S') as (S1 & S2 & Hx).
    apply Forall_app in Ha. destruct Ha as [Ha1 Ha2].
    repeat split; [now constructor | exact S2 |].
    intros x y [<-|Hin] Hy.
    + rewrite Forall_forall in Ha2. now apply Ha2.
    + now apply Hx.
Qed.

Lemma slice_to_length (A : Type) (i : Z) (l : list A) :
  0 <= i -> len (slice_to i l) = Z.min i (len l).
Proof.
  intros Hi. unfold len, slice_to, slice_bound.
  destruct (i <? 0) eqn:E; [apply Z.ltb_lt in E; lia|].
  rewrite length_firstn. lia.
Qed.

Lemma slice_to_all (A : Type) (i : Z) (l : list A) :
  len l <= i -> slice_to i l = l.
Proof.
  intros Hi. unfold len in Hi. unfold slice_to, slice_bound.
  destruct (i <? 0) eqn:E; [apply Z.ltb_lt in E; lia|].
  apply firstn_all2. lia.
Qed.

Section SortStability.
Variable A : Type.
Variable key : A -> Z.
Variable k : Z.

Lemma filter_insert_by (x : A) (l : list A) :
  filter (fun a => key a =? k) (insert_by key x l)
  = filter (fun a => key a =? k) (x :: l).
Proof.
  induction l as [|y l IH]; [reflexivity|].
  cbn [insert_by]. destruct (key x <=? key y) eqn:E; [reflexivity|].
  apply Z.leb_gt in E.
  cbn [filter] in *. rewrite IH.
  destruct (key x =? k) eqn:Ex; [|reflexivity].
  apply Z.eqb_eq in Ex.
  replace (key y =? k) with false by (symmetry; apply Z.eqb_neq; lia).
  reflexivity.
Qed.

Lemma filter_stable_sort (l : list A) :
  filter (fun a => key a =? k) (stable_sort key l)
  = filter (fun a => key a =? k) l.
Proof.
  induction l as [|x l IH]; [reflexivity|].
  cbn [stable_sort]. rewrite filter_insert_by.
  cbn [filter]. now rewrite IH.
Qed.

(** Sorting keeps the elements of equal key in their order, whichever way
    it sorts. *)
Lemma filter_sorted_by (reverse : bool) (l : list A) :
  filter (fun a => key a =? k) (sorted_by key reverse l)
  = filter (fun a => key a =? k) l.
Proof.
  unfold sorted_by. destruct reverse.
  - rewrite filter_rev, filter_stable_sort, filter_rev. apply rev_involutive.
  - apply filter_stable_sort.
Qed.
End SortStability.

Section BarMore.
Context {F : Type} `{Float64 F}.

(** The whole figure of [bar_viz], when it returns. *)
Lemma bar_viz_figure (self : UniViz) (data : list (string * Z))
      (miss_cnt : Z) (rest : list Z) (col_x : string) (bars : Z)
      (ascending : bool) :
  miss_cnt <= 0 \/ zsum (map snd data) + miss_cnt <> 0 ->
  exists fig,
    bar_viz self data (miss_cnt :: rest) col_x bars ascending
    = Ok (fig, set_barplot self) /\
    bar_source fig
    = map (fun x => {| bar_count := snd x;
                       bar_cat := xlabel (fst x);
                       bar_percen :=
                         percent_of (snd x) (zsum (map snd data) + miss_cnt) |})
          (bar_rows data bars ascending) /\
    bar_caption fig
    = (if len data >? bars
       then Some (len (bar_rows data bars ascending), len data) else None) /\
    bar_title fig
    = (if miss_cnt >? 0
       then WithMissing col_x
              (of_int miss_cnt / of_int (zsum (map snd data) + miss_cnt)
               * of_int 100)%f64
       else Plain col_x).
Proof.
  intros Hret. unfold bar_viz. cbn [getitem0 bind].
  assert (Httl :
            (if miss_cnt >? 0
             then bind (py_truediv miss_cnt (zsum (map snd data) + miss_cnt))
                       (fun q => Ok (WithMissing col_x (q * of_int 100)%f64))
             else Ok (Plain col_x))
            = Ok (if miss_cnt >? 0
                  then WithMissing col_x
                         (of_int miss_cnt
                          / of_int (zsum (map snd data) + miss_cnt)
                          * of_int 100)%f64
                  else Plain col_x)).
  { destruct (miss_cnt >? 0) eqn:E; [|reflexivity].
    apply Z.gtb_lt in E. unfold py_truediv.
    destruct (zsum (map snd data) + miss_cnt =? 0) eqn:E0.
    - apply Z.eqb_eq in E0. lia.
    - reflexivity. }
  rewrite Httl. cbn [bind].
  eexists. split; [reflexivity|].
  cbn [bar_source bar_caption bar_title]. fold (bar_rows data bars ascending).
  unfold len. rewrite length_map. repeat split.
Qed.

Lemma bar_rows_split (data : list (string * Z)) (bars : Z) (ascending : bool) :
  exists dropped,
    Permutation (bar_rows data bars ascending ++ dropped) data /\
    StronglySorted (if ascending then ascending_by snd else descending_by snd)
                   (bar_rows data bars ascending ++ dropped).
Proof.
  exists (slice_from bars (sorted_by snd (negb ascending) data)).
  unfold bar_rows. rewrite slice_to_from. split.
  - apply sorted_by_perm.
  - pose proof (sorted_by_sorted (@snd string Z) (negb ascending) data) as S.
    destruct ascending; exact S.
Qed.
End BarMore.

(** X2.  When [bar_viz] returns, the bars it shows are the extreme ones in
    the order of the flag: the entries of the input split into the shown
    and the dropped ones, the shown ones are sorted by count (descending
    for [ascending=False]), and no dropped entry would come before a shown
    one (every dropped count is at most, resp. at least, every shown
    count). *)
Theorem bar_viz_shows_extreme_counts
  (F : Type) (FF : Float64 F) (self : UniViz) (data : list (string * Z))
  (miss_cnt : Z) (rest : list Z) (col_x : string) (bars : Z)
  (ascending : bool) :
  miss_cnt <= 0 \/ zsum (map snd data) + miss_cnt <> 0 ->
  exists fig shown dropped,
    bar_viz self data (miss_cnt :: rest) col_x bars ascending
    = Ok (fig, set_barplot self) /\
    Permutation (shown ++ dropped) data /\
    map bar_count (bar_source fig) = map snd shown /\
    map bar_cat (bar_source fig) = map (fun x => xlabel (fst x)) shown /\
    StronglySorted (if ascending then ascending_by snd else descending_by snd)
                   shown /\
    forall s d, In s shown -> In d dropped ->
                if ascending then snd s <= snd d else snd d <= snd s.
Proof.
  intros Hret.
  destruct (bar_viz_figure self data rest col_x bars ascending Hret)
    as (fig & E & Hsrc & _).
  destruct (bar_rows_split data bars ascending) as (dropped & Hperm & Hsort).
  exists fig, (bar_rows data bars ascending), dropped.
  split; [exact E|]. split; [exact Hperm|].
  rewrite Hsrc, !map_map. cbn [bar_count bar_cat].
  split; [reflexivity|]. split; [reflexivity|].
  apply StronglySorted_app_inv in Hsort.
  destruct Hsort as (S1 & _ & Hx).
  split; [exact S1|].
  intros s d Hs Hd. specialize (Hx s d Hs Hd).
  destruct ascending; exact Hx.
Qed.

(** X2 at {"a":2,"b":9,"c":5}, two bars, descending. *)
Lemma bar_viz_shows_extreme_counts_witness :
  exists fig shown dropped,
    bar_viz (F := xfloat) UniViz_init
            [("a"%string, 2); ("b"%string, 9); ("c"%string, 5)] [0] "col" 2
            false
    = Ok (fig, set_barplot UniViz_init) /\
    Permutation (shown ++ dropped)
                [("a"%string, 2); ("b"%string, 9); ("c"%string, 5)] /\
    map bar_count (bar_source fig) = map snd shown /\
    map bar_cat (bar_source fig) = map (fun x => xlabel (fst x)) shown /\
    StronglySorted (descending_by snd) shown /\
    forall s d, In s shown -> In d dropped -> snd d <= snd s.
Proof.
  apply (@bar_viz_shows_extreme_counts xfloat exact UniViz_init
           [("a"%string, 2); ("b"%string, 9); ("c"%string, 5)] 0 []
           "col"%string 2 false).
  left; lia.
Defined.

(** X3.  For a non-negative [bars], [bar_viz] shows [min(bars, number of
    categories)] bars; the x axis is captioned "Top {bars} of {number of
    categories} categories" exactly when there are more categories than
    [bars], and has no caption when all categories are shown. *)
Theorem bar_viz_caption
  (F : Type) (FF : Float64 F) (self : UniViz) (data : list (string * Z))
  (miss_cnt : Z) (rest : list Z) (col_x : string) (bars : Z)
  (ascending : bool) :
  miss_cnt <= 0 \/ zsum (map snd data) + miss_cnt <> 0 ->
  0 <= bars ->
  exists fig,
    bar_viz self data (miss_cnt :: rest) col_x bars ascending
    = Ok (fig, set_barplot self) /\
    len (bar_source fig) = Z.min bars (len data) /\
    bar_caption fig
    = (if bars <? len data then Some (bars, len data) else None).
Proof.
  intros Hret Hb.
  destruct (bar_viz_figure self data rest col_x bars ascending Hret)
    as (fig & E & Hsrc & Hcap & _).
  exists fig. split; [exact E|].
  assert (Hlen : len (bar_rows data bars ascending) = Z.min bars (len data)).
  { unfold bar_rows. rewrite slice_to_length by exact Hb.
    f_equal. unfold len. f_equal.
    apply Permutation_length, sorted_by_perm. }
  split.
  - rewrite Hsrc. unfold len in *. now rewrite length_map.
  - rewrite Hcap, Hlen, Z.gtb_ltb.
    destruct (bars <? len data) eqn:E0; [|reflexivity].
    apply Z.ltb_lt in E0. do 2 f_equal. lia.
Qed.

(** X3 at three categories and two bars: "Top 2 of 3 categories". *)
Lemma bar_viz_caption_witness :
  exists fig,
    bar_viz (F := xfloat) UniViz_init
            [("a"%string, 2); ("b"%string, 9); ("c"%string, 5)] [0] "col" 2
            true
    = Ok (fig, set_barplot UniViz_init) /\
    len (bar_source fig) = 2 /\
    bar_caption fig = Some (2, 3).
Proof.
  apply (@bar_viz_caption xfloat exact UniViz_init
           [("a"%string, 2); ("b"%string, 9); ("c"%string, 5)] 0 []
           "col"%string 2 true).
  - left; lia.
  - lia.
Defined.

(** X4.  Bars of equal count keep the order their categories have in the
    input, for [ascending=True] and for [ascending=False] alike (a
    descending sort does not reverse ties): when all categories are shown,
    the labels of the bars of any one count are the labels of the input's
    categories of that count, in input order. *)
Theorem bar_viz_ties_keep_input_order
  (F : Type) (FF : Float64 F) (self : UniViz) (data : list (string * Z))
  (miss_cnt : Z) (rest : list Z) (col_x : string) (bars : Z)
  (ascending : bool) (k : Z) :
  miss_cnt <= 0 \/ zsum (map snd data) + miss_cnt <> 0 ->
  len data <= bars ->
  exists fig,
    bar_viz self data (miss_cnt :: rest) col_x bars ascending
    = Ok (fig, set_barplot self) /\
    map bar_cat (filter (fun r => bar_count r =? k) (bar_source fig))
    = map (fun x => xlabel (fst x)) (filter (fun x => snd x =? k) data).
Proof.
  intros Hret Hb.
  destruct (bar_viz_figure self data rest col_x bars ascending Hret)
    as (fig & E & Hsrc & _).
  exists fig. split; [exact E|].
  rewrite Hsrc, filter_map_swap, map_map. cbn [bar_count bar_cat].
  unfold bar_rows. rewrite slice_to_all.
  - now rewrite (filter_sorted_by (@snd string Z) k).
  - unfold len in *.
    rewrite (Permutation_length (sorted_by_perm _ _ _)). exact Hb.
Qed.

(** X4 at {"x":1,"y":3,"z":1,"w":3}, descending, for the count 1: "x"
    stays before "z". *)
Lemma bar_viz_ties_keep_input_order_witness :
  exists fig,
    bar_viz (F := xfloat) UniViz_init
            [("x"%string, 1); ("y"%string, 3); ("z"%string, 1);
             ("w"%string, 3)] [0] "col" 10 false
    = Ok (fig, set_barplot UniViz_init) /\
    map bar_cat (filter (fun r => bar_count r =? 1) (bar_source fig))
    = ["x"%string; "z"%string].
Proof.
  apply (@bar_viz_ties_keep_input_order xfloat exact UniViz_init
           [("x"%string, 1); ("y"%string, 3); ("z"%string, 1);
            ("w"%string, 3)] 0 [] "col"%string 10 false 1).
  - left; lia.
  - vm_compute. discriminate.
Defined.






(* ================================================================== *)
(** * Further properties: pie chart *)
(* ================================================================== *)

(** X6.  When no more categories than [bars] remain after dropping the
    missing ones, [pie_viz] shows each of them exactly once, sorted by
    count in the order of the flag, and adds no "Other" row: its table is a
    sorted permutation of the non-missing entries. *)
Theorem pie_viz_shows_all_when_few
  (F : Type) (FF : Float64 F) (self : UniViz)
  (data : list (string * option Z)) (col_x : string) (bars : Z)
  (ascending : bool) :
  len (dropna data) <= bars ->
  exists fig,
    pie_viz self data col_x bars ascending = Ok (fig, set_pie self) /\
    Permutation (map (fun r => (pie_cat r, pie_count r)) (pie_source fig))
                (dropna data) /\
    StronglySorted (if ascending then ascending_by snd else descending_by snd)
                   (map (fun r => (pie_cat r, pie_count r)) (pie_source fig)).
Proof.
  intros Hb.
  destruct (pie_viz_unfold self data col_x bars ascending)
    as (fig & E & Hrows & _).
  exists fig. split; [exact E|].
  rewrite Hrows. unfold pie_rows. rewrite sort_values_length.
  replace (len (dropna data) >? bars) with false
    by (symmetry; rewrite Z.gtb_ltb; apply Z.ltb_ge; lia).
  split; [apply sort_values_perm | apply sort_values_sorted].
Qed.

(** X6 at {"a":3,"b":None,"c":5} with room for five slices. *)
Lemma pie_viz_shows_all_when_few_witness :
  exists fig,
    pie_viz (F := xfloat) UniViz_init
            [("a"%string, Some 3); ("b"%string, None); ("c"%string, Some 5)]
            "col" 5 false
    = Ok (fig, set_pie UniViz_init) /\
    Permutation (map (fun r => (pie_cat r, pie_count r)) (pie_source fig))
                [("a"%string, 3); ("c"%string, 5)] /\
    StronglySorted (descending_by snd)
                   (map (fun r => (pie_cat r, pie_count r)) (pie_source fig)).
Proof.
  apply (@pie_viz_shows_all_when_few xfloat exact UniViz_init
           [("a"%string, Some 3); ("b"%string, None); ("c"%string, Some 5)]
           "col"%string 5 false).
  vm_compute. discriminate.
Defined.

(** X7.  For a non-negative [bars] and n non-missing categories, [pie_viz]
    draws n wedges when n <= bars and bars + 1 wedges (with "Other")
    otherwise, and it attaches the legend exactly when that number is at
    most 7. *)
Theorem pie_viz_wedges_and_legend
  (F : Type) (FF : Float64 F) (self : UniViz)
  (data : list (string * option Z)) (col_x : string) (bars : Z)
  (ascending : bool) :
  0 <= bars ->
  exists fig,
    pie_viz self data col_x bars ascending = Ok (fig, set_pie self) /\
    len (pie_source fig)
    = (if bars <? len (dropna data) then bars + 1 else len (dropna data)) /\
    pie_legend fig
    = (if bars <? len (dropna data) then bars <=? 6
       else len (dropna data) <=? 7).
Proof.
  intros Hb. unfold pie_viz. eexists. split; [reflexivity|].
  cbn [pie_source pie_legend].
  assert (Hlen : len (pie_rows data bars ascending)
                 = if bars <? len (dropna data) then bars + 1
                   else len (dropna data)).
  { unfold pie_rows. rewrite sort_values_length, Z.gtb_ltb.
    destruct (bars <? len (dropna data)) eqn:E.
    - apply Z.ltb_lt in E.
      unfold len at 1. rewrite length_app, Nat2Z.inj_add.
      fold (len (slice_to bars (sort_values ascending (dropna data)))).
      rewrite slice_to_length, sort_values_length by exact Hb.
      simpl. lia.
    - apply sort_values_length. }
  assert (Hm : forall (A B : Type) (f : A -> B) (l : list A),
             len (map f l) = len l)
    by (intros; unfold len; now rewrite length_map).
  rewrite !Hm, Hlen.
  split; [reflexivity|].
  unfold max_num_legend.
  destruct (bars <? len (dropna data)); [|reflexivity].
  destruct (bars <=? 6) eqn:E6.
  - apply Z.leb_le in E6. apply Z.leb_le. lia.
  - apply Z.leb_gt in E6. apply Z.leb_gt. lia.
Qed.

(** X7 at nine categories and seven slices: eight wedges, no legend. *)
Lemma pie_viz_wedges_and_legend_witness :
  exists fig,
    pie_viz (F := xfloat) UniViz_init
            [("a"%string, Some 1); ("b"%string, Some 2); ("c"%string, Some 3);
             ("d"%string, Some 4); ("e"%string, Some 5); ("f"%string, Some 6);
             ("g"%string, Some 7); ("h"%string, Some 8); ("i"%string, Some 9)]
            "col" 7 false
    = Ok (fig, set_pie UniViz_init) /\
    len (pie_source fig) = 8 /\
    pie_legend fig = false.
Proof.
  apply (@pie_viz_wedges_and_legend xfloat exact UniViz_init
           [("a"%string, Some 1); ("b"%string, Some 2); ("c"%string, Some 3);
            ("d"%string, Some 4); ("e"%string, Some 5); ("f"%string, Some 6);
            ("g"%string, Some 7); ("h"%string, Some 8); ("i"%string, Some 9)]
           "col"%string 7 false).
  lia.
Defined.







(* ================================================================== *)
(** * Further properties: histogram *)
(* ================================================================== *)

Section HistMore.
Context {F : Type} `{Float64 F}.

(** The lengths of [bins_array[:-1]] and [bins_array[1:]]. *)
Lemma slice_edges_length (edges : list F) :
  len (slice_to (-1) edges) = Z.max 0 (len edges - 1) /\
  len (slice_from 1 edges) = Z.max 0 (len edges - 1).
Proof.
  unfold len, slice_to, slice_from, slice_bound.
  replace (-1 <? 0) with true by reflexivity.
  replace (1 <? 0) with false by reflexivity.
  rewrite length_firstn, length_skipn. lia.
Qed.

Lemma hist_rows_length (left right : list F) (freq : list Z)
      (percen : list F) :
  List.length left = List.length freq ->
  List.length right = List.length freq ->
  List.length percen = List.length freq ->
  List.length (hist_rows left right freq percen) = List.length freq.
Proof.
  intros Hl Hr Hp.
  destruct (hist_rows_columns left right freq percen Hl Hr Hp)
    as (_ & _ & Hf & _).
  rewrite <- Hf at 2. now rewrite length_map.
Qed.

(** The whole figure of [hist_viz] on a well-shaped input. *)
Lemma hist_viz_figure (self : UniViz) (freqs : list Z) (edges : list F)
      (miss_cnt : Z) (rest : list Z) (orig_df_len : Z) (show_y_label : bool)
      (col_x : string) (yscale : axis_type) :
  miss_cnt <= 0 \/ orig_df_len <> 0 ->
  List.length edges = S (List.length freqs) ->
  exists fig,
    hist_viz self (freqs, edges) (miss_cnt :: rest) orig_df_len show_y_label
             col_x yscale
    = Ok (fig, set_hist self) /\
    hist_ticker fig = edges /\
    map quad_left (hist_quads fig) = firstn (List.length freqs) edges /\
    map quad_right (hist_quads fig) = skipn 1 edges /\
    map hist_percen (hist_source fig)
    = map (fun f => percent_of f orig_df_len) freqs /\
    hist_title fig
    = (if miss_cnt >? 0
       then WithMissing col_x
              (of_int miss_cnt / of_int orig_df_len * of_int 100)%f64
       else Plain col_x).
Proof.
  intros Hret Hlen. unfold hist_viz. cbn [getitem0 bind fst snd].
  assert (Httl :
            (if miss_cnt >? 0
             then bind (py_truediv miss_cnt orig_df_len)
                       (fun q => Ok (WithMissing col_x (q * of_int 100)%f64))
             else Ok (Plain col_x))
            = Ok (if miss_cnt >? 0
                  then WithMissing col_x
                         (of_int miss_cnt / of_int orig_df_len
                          * of_int 100)%f64
                  else Plain col_x)).
  { destruct (miss_cnt >? 0) eqn:E; [|reflexivity].
    apply Z.gtb_lt in E. unfold py_truediv.
    destruct (orig_df_len =? 0) eqn:E0.
    - apply Z.eqb_eq in E0. lia.
    - reflexivity. }
  rewrite Httl. cbn [bind].
  destruct (slice_edges edges Hlen) as (E1 & E2 & L1 & L2).
  unfold hist_frame, len.
  rewrite L1, L2, length_map, !Z.eqb_refl. cbn [andb bind].
  eexists. split; [reflexivity|].
  cbn [hist_ticker hist_quads hist_source hist_title].
  rewrite E1, E2, !map_map. cbn [quad_left quad_right].
  destruct (hist_rows_columns (firstn (List.length freqs) edges)
              (skipn 1 edges) freqs
              (map (fun f => (of_int f / of_int orig_df_len
                              * of_int 100)%f64) freqs))
    as (Hl & Hr & _ & Hp).
  { rewrite length_firstn. lia. }
  { rewrite length_skipn. lia. }
  { apply length_map. }
  repeat split; assumption.
Qed.
End HistMore.

(** X9.  The rectangles of a histogram tile the range of the bin edges:
    each one ends where the next begins, the first starts at the first
    edge, the last ends at the last edge, and the x ticks are the bin
    edges. *)
Theorem hist_viz_bars_adjacent
  (F : Type) (FF : Float64 F) (self : UniViz) (freqs : list Z)
  (edges : list F) (miss_cnt : Z) (rest : list Z) (orig_df_len : Z)
  (show_y_label : bool) (col_x : string) (yscale : axis_type) :
  miss_cnt <= 0 \/ orig_df_len <> 0 ->
  len edges = len freqs + 1 ->
  exists fig,
    hist_viz self (freqs, edges) (miss_cnt :: rest) orig_df_len show_y_label
             col_x yscale
    = Ok (fig, set_hist self) /\
    hist_ticker fig = edges /\
    (forall i q1 q2,
        nth_error (hist_quads fig) i = Some q1 ->
        nth_error (hist_quads fig) (S i) = Some q2 ->
        quad_right q1 = quad_left q2) /\
    (forall q, nth_error (hist_quads fig) 0 = Some q ->
               nth_error edges 0 = Some (quad_left q)) /\
    (forall q, nth_error (hist_quads fig) (List.length freqs - 1) = Some q ->
               nth_error edges (List.length edges - 1) = Some (quad_right q)).
Proof.
  intros Hret Hlen.
  assert (Hlen' : List.length edges = S (List.length freqs))
    by (unfold len in Hlen; lia).
  destruct (hist_viz_figure self freqs edges rest show_y_label col_x yscale
              Hret Hlen') as (fig & E & Htick & Hl & Hr & _).
  exists fig. split; [exact E|]. split; [exact Htick|].
  assert (Left : forall i q, nth_error (hist_quads fig) i = Some q ->
                             nth_error edges i = Some (quad_left q)).
  { intros i q Hq.
    apply (map_nth_error quad_left) in Hq. rewrite Hl in Hq.
    rewrite nth_error_firstn in Hq.
    destruct (PeanoNat.Nat.ltb i (List.length freqs));
      [exact Hq | discriminate]. }
  assert (Right : forall i q, nth_error (hist_quads fig) i = Some q ->
                              nth_error edges (S i) = Some (quad_right q)).
  { intros i q Hq.
    apply (map_nth_error quad_right) in Hq. rewrite Hr in Hq.
    now rewrite nth_error_skipn in Hq. }
  split; [|split].
  - intros i q1 q2 H1 H2.
    apply Right in H1. apply Left in H2. congruence.
  - intros q Hq. now apply Left.
  - intros q Hq.
    destruct (List.length freqs) as [|n] eqn:En.
    + (* no bin: there is no rectangle either *)
      apply (map_nth_error quad_left) in Hq. rewrite Hl in Hq.
      discriminate Hq.
    + apply Right in Hq. rewrite Hlen'.
      cbn [Nat.sub] in *. now rewrite PeanoNat.Nat.sub_0_r in *.
Qed.

(** X9 at two bins over the edges [0, 1/2, 1]. *)
Lemma hist_viz_bars_adjacent_witness :
  exists fig,
    hist_viz (F := xfloat) UniViz_init ([4; 6], [Fin 0; Fin (1 # 2); Fin 1])
             [0] 10 true "col" linear
    = Ok (fig, set_hist UniViz_init) /\
    hist_ticker fig = [Fin 0; Fin (1 # 2); Fin 1] /\
    (forall i q1 q2,
        nth_error (hist_quads fig) i = Some q1 ->
        nth_error (hist_quads fig) (S i) = Some q2 ->
        quad_right q1 = quad_left q2) /\
    (forall q, nth_error (hist_quads fig) 0 = Some q ->
               nth_error [Fin 0; Fin (1 # 2); Fin 1] 0
               = Some (quad_left q)) /\
    (forall q, nth_error (hist_quads fig) 1 = Some q ->
               nth_error [Fin 0; Fin (1 # 2); Fin 1] 2
               = Some (quad_right q)).
Proof.
  apply (@hist_viz_bars_adjacent xfloat exact UniViz_init [4; 6]
           [Fin 0; Fin (1 # 2); Fin 1] 0 [] 10 true "col"%string linear).
  - left; lia.
  - reflexivity.
Defined.

(** X10.  Once the title is computed, [hist_viz] returns exactly when
    there is one frequency per bin, that is [max(0, len(edges) - 1)]
    frequencies, with one row per bin; with any other number of
    frequencies the frame constructor raises [ValueError].  Empty arrays
    give a chart without bars. *)
Theorem hist_viz_shape_check
  (F : Type) (FF : Float64 F) (self : UniViz) (freqs : list Z)
  (edges : list F) (miss_cnt : Z) (rest : list Z) (orig_df_len : Z)
  (show_y_label : bool) (col_x : string) (yscale : axis_type) :
  miss_cnt <= 0 \/ orig_df_len <> 0 ->
  (len freqs = Z.max 0 (len edges - 1) ->
   exists fig,
     hist_viz self (freqs, edges) (miss_cnt :: rest) orig_df_len show_y_label
              col_x yscale
     = Ok (fig, set_hist self) /\
     len (hist_source fig) = len freqs /\
     len (hist_quads fig) = len freqs) /\
  (len freqs <> Z.max 0 (len edges - 1) ->
   hist_viz self (freqs, edges) (miss_cnt :: rest) orig_df_len show_y_label
            col_x yscale
   = Raise ValueError).
Proof.
  intros Hret. unfold hist_viz. cbn [getitem0 bind fst snd].
  destruct (missing_title_ok (F := F) col_x Hret) as (ttl & ->). cbn [bind].
  destruct (slice_edges_length edges) as (L1 & L2).
  unfold hist_frame. rewrite L1, L2.
  assert (Lp : len (map (fun f => (of_int f / of_int orig_df_len
                                   * of_int 100)%f64) freqs) = len freqs)
    by (unfold len; now rewrite length_map).
  rewrite Lp, !Z.eqb_refl. cbn [andb]. rewrite andb_true_r.
  split; intros Hlen.
  - replace (Z.max 0 (len edges - 1) =? len freqs) with true
      by (symmetry; apply Z.eqb_eq; lia).
    cbn [bind]. eexists. split; [reflexivity|].
    cbn [hist_source hist_quads].
    assert (Hrows : List.length
                      (hist_rows (slice_to (-1) edges) (slice_from 1 edges)
                         freqs
                         (map (fun f => (of_int f / of_int orig_df_len
                                         * of_int 100)%f64) freqs))
                    = List.length freqs).
    { apply hist_rows_length; unfold len in *; lia. }
    unfold len. rewrite length_map, Hrows. split; reflexivity.
  - replace (Z.max 0 (len edges - 1) =? len freqs) with false
      by (symmetry; apply Z.eqb_neq; lia).
    reflexivity.
Qed.

(** X10 where the shapes disagree: two frequencies, two edges. *)
Lemma hist_viz_shape_check_witness :
  hist_viz (F := xfloat) UniViz_init ([2; 3], [Fin 0; Fin 1]) [0] 5 true "col"
           linear
  = Raise ValueError.
Proof.
  apply (proj2 (@hist_viz_shape_check xfloat exact UniViz_init [2; 3]
                  [Fin 0; Fin 1] 0 [] 5 true "col"%string linear
                  (or_introl (Z.le_refl 0)))).
  vm_compute. discriminate.
Defined.



(* ================================================================== *)
(** * Further properties: QQ-norm plot *)
(* ================================================================== *)

Lemma getitem_absent (A : Type) (d : list (string * A)) (key : string) :
  ~ In key (map fst d) -> getitem d key = Raise (KeyError key).
Proof.
  induction d as [|[k v] d IH]; simpl; intros Hn; [reflexivity|].
  destruct (String.eqb k key) eqn:E.
  - apply String.eqb_eq in E. tauto.
  - apply IH. tauto.
Qed.

Lemma getitem_present (A : Type) (d : list (string * A)) (key : string) :
  In key (map fst d) -> exists v, getitem d key = Ok v /\ In (key, v) d.
Proof.
  induction d as [|[k v] d IH]; simpl; intros Hin; [contradiction|].
  destruct (String.eqb k key) eqn:E.
  - apply String.eqb_eq in E. subst. eauto.
  - destruct Hin as [->|Hin]; [now rewrite String.eqb_refl in E|].
    destruct (IH Hin) as (v' & -> & Hv). eauto.
Qed.

(** X12.  What [qqnorm_viz] does on every input: a missing key "theory"
    is a [KeyError] for "theory", a missing key "sample" (with "theory"
    present) one for "sample"; with both keys present it raises
    [ValueError] when both arrays are empty and otherwise returns the
    scatter of theory against sample, so one empty array is accepted. *)
Theorem qqnorm_viz_outcomes
  (F : Type) (FF : Float64 F) (self : UniViz)
  (in_data : list (string * list F)) (col_x : string) :
  (~ In "theory"%string (map fst in_data) ->
   qqnorm_viz self in_data col_x = Raise (KeyError "theory")) /\
  (In "theory"%string (map fst in_data) ->
   ~ In "sample"%string (map fst in_data) ->
   qqnorm_viz self in_data col_x = Raise (KeyError "sample")) /\
  (forall theory sample,
      getitem in_data "theory" = Ok theory ->
      getitem in_data "sample" = Ok sample ->
      (theory ++ sample = [] ->
       qqnorm_viz self in_data col_x = Raise ValueError) /\
      (theory ++ sample <> [] ->
       exists fig,
         qqnorm_viz self in_data col_x = Ok (fig, set_qqnorm self) /\
         qq_circle_x fig = theory /\
         qq_circle_y fig = sample)).
Proof.
  split; [|split].
  - intros Hn. unfold qqnorm_viz. now rewrite getitem_absent.
  - intros Hin Hn. unfold qqnorm_viz.
    destruct (getitem_present in_data "theory" Hin) as (v & -> & _).
    cbn [bind]. now rewrite getitem_absent.
  - intros theory sample Ht Hs. unfold qqnorm_viz. rewrite Ht, Hs.
    cbn [bind]. split.
    + intros ->. reflexivity.
    + intros Hne. destruct (theory ++ sample) as [|x a]; [contradiction|].
      cbn [np_min np_max bind]. eexists. repeat split.
Qed.

(* ================================================================== *)
(** * Further properties: box plot *)
(* ================================================================== *)

Section BoxMore.
Context {F : Type} `{Float64 F}.

(** The loop over the categories returns when each has its outliers. *)
Lemma outlier_glyphs_result (has_column : bool)
      (data : list (string * five_num)) (i : Z) :
  if forallb (fun r => is_some (outliers (snd r))) data
  then outlier_glyphs has_column (enumerate_from i data)
       = Ok (map (fun xr => map (fun y => (of_int (fst xr), y))
                                (match outliers (snd (snd xr)) with
                                 | Some ys => ys
                                 | None => []
                                 end))
                 (enumerate_from i data))
  else outlier_glyphs has_column (enumerate_from i data)
       = Raise (if has_column then TypeError else KeyError "outliers").
Proof.
  revert i. induction data as [|[c r] data IH]; intros i; [reflexivity|].
  cbn [forallb enumerate_from outlier_glyphs snd fst map].
  destruct (outliers r) as [ys|]; cbn [is_some andb]; [|reflexivity].
  specialize (IH (i + 1)).
  destruct (forallb (fun r => is_some (outliers (snd r))) data);
    rewrite IH; reflexivity.
Qed.

Lemma nth_error_enumerate_from (A : Type) (l : list A) (k : Z) (i : nat)
      (a : A) :
  nth_error l i = Some a ->
  nth_error (enumerate_from k l) i = Some (k + Z.of_nat i, a).
Proof.
  revert k i. induction l as [|b l IH]; intros k [|i]; simpl;
    try discriminate.
  - intros [= ->]. do 2 f_equal. lia.
  - intros Hi. rewrite (IH (k + 1) i Hi). do 2 f_equal. lia.
Qed.

(** Looking a position up in the labels of the categories numbered from
    [k]. *)
Lemma tick_label_enumerate (A : Type) (name : A -> string) (l : list A)
      (k : Z) :
  (forall t, t < k ->
             tick_label (map (fun xr => (fst xr, name (snd xr)))
                             (enumerate_from k l)) t = None) /\
  (forall i a, nth_error l i = Some a ->
               tick_label (map (fun xr => (fst xr, name (snd xr)))
                               (enumerate_from k l)) (k + Z.of_nat i)
               = Some (name a)).
Proof.
  revert k. induction l as [|b l IH]; intros k.
  - split; [reflexivity | intros [|i] a; discriminate].
  - destruct (IH (k + 1)) as (Hlt & Hnth).
    cbn [enumerate_from map tick_label fst snd]. split.
    + intros t Ht. rewrite Hlt by lia.
      replace (k =? t) with false by (symmetry; apply Z.eqb_neq; lia).
      reflexivity.
    + intros [|i] a Ha; simpl in Ha.
      * injection Ha as ->. rewrite Hlt by lia.
        replace (k =? k + Z.of_nat 0) with true
          by (symmetry; apply Z.eqb_eq; lia).
        reflexivity.
      * replace (k + Z.of_nat (S i)) with (k + 1 + Z.of_nat i) by lia.
        now rewrite (Hnth i a Ha).
Qed.
(** Every way [box_viz] can end. *)
Lemma box_viz_cases (self : UniViz) (data : list (string * five_num))
      (col_x : string) (col_y : option string) (box_width : F) :
  (existsb (fun r => is_some (tf (snd r))) data = false /\
   box_viz self data col_x col_y box_width = Raise (KeyError "tf")) \/
  (existsb (fun r => is_some (tf (snd r))) data = true /\
   existsb (fun r => is_some (sf (snd r))) data = false /\
   box_viz self data col_x col_y box_width = Raise (KeyError "sf")) \/
  (existsb (fun r => is_some (tf (snd r))) data = true /\
   existsb (fun r => is_some (sf (snd r))) data = true /\
   forallb (fun r => is_some (outliers (snd r))) data = false /\
   box_viz self data col_x col_y box_width
   = Raise (if existsb (fun r => is_some (outliers (snd r))) data
            then TypeError else KeyError "outliers")) \/
  (existsb (fun r => is_some (tf (snd r))) data = true /\
   existsb (fun r => is_some (sf (snd r))) data = true /\
   forallb (fun r => is_some (outliers (snd r))) data = true /\
   exists fig,
     box_viz self data col_x col_y box_width = Ok (fig, set_box self) /\
     box_outliers fig
     = map (fun xr => map (fun y => (of_int (fst xr), y))
                          (match outliers (snd (snd xr)) with
                           | Some ys => ys
                           | None => []
                           end))
           (enumerate_from 1 data) /\
     box_tick_labels fig
     = map (fun xr => (fst xr, fst (snd xr))) (enumerate_from 1 data) /\
     box_ticks fig = map fst (enumerate_from 1 data) /\
     map (fun r => (box_x r, box_w r, box_x0 r, box_x1 r)) (box_source fig)
     = map (fun xr => (fst xr, box_width,
                       (of_int (fst xr) - box_width / of_int 2)%f64,
                       (of_int (fst xr) + box_width / of_int 2)%f64))
           (enumerate_from 1 data)).
Proof.
  unfold box_viz, column.
  pose proof (outlier_glyphs_result
                (existsb (fun r => is_some (outliers (snd r))) data) data 1)
    as Hg.
  destruct (existsb (fun r => is_some (tf (snd r))) data);
    cbn [bind]; [|now left].
  destruct (existsb (fun r => is_some (sf (snd r))) data);
    cbn [bind]; [|now right; left].
  destruct (forallb (fun r => is_some (outliers (snd r))) data);
    rewrite Hg; cbn [bind].
  - right; right; right. repeat split.
    eexists. split; [reflexivity|].
    cbn [box_outliers box_tick_labels box_ticks box_source].
    rewrite !map_map. repeat split.
  - right; right; left. repeat split.
Qed.
End BoxMore.

(** X13.  [box_viz] returns exactly when some category has the key "tf",
    some has "sf" and every category has "outliers".  Otherwise it raises,
    in this order: [KeyError] "tf" (also for an empty mapping), [KeyError]
    "sf", [KeyError] "outliers" when no category has outliers, and
    [TypeError] when only some have. *)
Theorem box_viz_outcomes
  (F : Type) (FF : Float64 F) (self : UniViz)
  (data : list (string * five_num)) (col_x : string) (col_y : option string)
  (box_width : F) :
  is_ok (box_viz self data col_x col_y box_width)
  = existsb (fun r => is_some (tf (snd r))) data
    && existsb (fun r => is_some (sf (snd r))) data
    && forallb (fun r => is_some (outliers (snd r))) data /\
  (existsb (fun r => is_some (tf (snd r))) data = false ->
   box_viz self data col_x col_y box_width = Raise (KeyError "tf")) /\
  (existsb (fun r => is_some (tf (snd r))) data = true ->
   existsb (fun r => is_some (sf (snd r))) data = false ->
   box_viz self data col_x col_y box_width = Raise (KeyError "sf")) /\
  (existsb (fun r => is_some (tf (snd r))) data = true ->
   existsb (fun r => is_some (sf (snd r))) data = true ->
   forallb (fun r => is_some (outliers (snd r))) data = false ->
   box_viz self data col_x col_y box_width
   = Raise (if existsb (fun r => is_some (outliers (snd r))) data
            then TypeError else KeyError "outliers")).
Proof.
  destruct (box_viz_cases self data col_x col_y box_width)
    as [(Ht & E)|[(Ht & Hs & E)|[(Ht & Hs & Ho & E)
                                |(Ht & Hs & Ho & fig & E & _)]]];
    rewrite E, ?Ht, ?Hs, ?Ho; cbn [is_ok andb];
    repeat split; try discriminate; try reflexivity.
Qed.

(** X14.  When [box_viz] returns, the outliers of the i-th category (from
    0) are drawn as one group of points, all at that category's x position
    i + 1 and at the heights the summary lists, in order. *)
Theorem box_viz_outliers_at_their_box
  (F : Type) (FF : Float64 F) (self : UniViz)
  (data : list (string * five_num)) (col_x : string) (col_y : option string)
  (box_width : F) fig st :
  box_viz self data col_x col_y box_width = Ok (fig, st) ->
  List.length (box_outliers fig) = List.length data /\
  forall i c r ys,
    nth_error data i = Some (c, r) ->
    outliers r = Some ys ->
    nth_error (box_outliers fig) i
    = Some (map (fun y => (of_int (Z.of_nat i + 1), y)) ys).
Proof.
  intros E.
  destruct (box_viz_cases self data col_x col_y box_width)
    as [(_ & E')|[(_ & _ & E')|[(_ & _ & _ & E')
                               |(_ & _ & _ & fig' & E' & Hg & _)]]];
    rewrite E' in E; try discriminate.
  injection E as <- _. rewrite Hg. split.
  - rewrite length_map.
    rewrite <- (length_map snd), enumerate_from_snd. reflexivity.
  - intros i c r ys Hi Hr.
    apply (nth_error_enumerate_from data 1) in Hi.
    rewrite nth_error_map, Hi. cbn [option_map fst snd]. rewrite Hr.
    now replace (1 + Z.of_nat i) with (Z.of_nat i + 1) by lia.
Qed.

(** X14 at two categories, the second with two outliers. *)
Lemma box_viz_outliers_at_their_box_witness :
  exists fig,
    box_viz (F := xfloat) UniViz_init
            [("a"%string,
              {| lw := None; tf := Some (Fin 1); fy := None;
                 sf := Some (Fin 2); uw := None; outliers := Some [] |});
             ("b"%string,
              {| lw := None; tf := Some (Fin 1); fy := None;
                 sf := Some (Fin 2); uw := None;
                 outliers := Some [Fin 7; Fin 9] |})]
            "col" None (Fin (1 # 4))
    = Ok (fig, set_box UniViz_init) /\
    nth_error (box_outliers fig) 1 = Some [(Fin 2, Fin 7); (Fin 2, Fin 9)].
Proof.
  eexists. split; [reflexivity|].
  exact (proj2 (@box_viz_outliers_at_their_box xfloat exact UniViz_init
                  [("a"%string,
                    {| lw := None; tf := Some (Fin 1); fy := None;
                       sf := Some (Fin 2); uw := None;
                       outliers := Some [] |});
                   ("b"%string,
                    {| lw := None; tf := Some (Fin 1); fy := None;
                       sf := Some (Fin 2); uw := None;
                       outliers := Some [Fin 7; Fin 9] |})]
                  "col"%string None (Fin (1 # 4)) _ _ eq_refl)
               1%nat "b"%string _ [Fin 7; Fin 9] eq_refl eq_refl).
Defined.

Lemma tick_label_beyond (A : Type) (name : A -> string) (l : list A)
      (k t : Z) :
  k + len l <= t ->
  tick_label (map (fun xr => (fst xr, name (snd xr))) (enumerate_from k l)) t
  = None.
Proof.
  revert k. induction l as [|b l IH]; intros k Ht; [reflexivity|].
  cbn [enumerate_from map tick_label fst snd].
  unfold len in *. cbn [List.length] in Ht.
  rewrite IH by lia.
  replace (k =? t) with false by (symmetry; apply Z.eqb_neq; lia).
  reflexivity.
Qed.

(** X15.  When [box_viz] returns for N categories, the x axis has its
    ticks at 1, ..., N, and the tick formatter's mapping sends the
    position of each category back to that category's name (position i + 1
    to the i-th key of the input) and has no entry for any other
    position. *)
Theorem box_viz_tick_labels
  (F : Type) (FF : Float64 F) (self : UniViz)
  (data : list (string * five_num)) (col_x : string) (col_y : option string)
  (box_width : F) fig st :
  box_viz self data col_x col_y box_width = Ok (fig, st) ->
  box_ticks fig = map Z.of_nat (seq 1 (List.length data)) /\
  (forall i c r,
      nth_error data i = Some (c, r) ->
      tick_label (box_tick_labels fig) (Z.of_nat i + 1) = Some c) /\
  (forall t, t < 1 \/ len data < t ->
             tick_label (box_tick_labels fig) t = None).
Proof.
  intros E.
  destruct (box_viz_cases self data col_x col_y box_width)
    as [(_ & E')|[(_ & _ & E')|[(_ & _ & _ & E')
                               |(_ & _ & _ & fig' & E' & _ & Hl & Ht & _)]]];
    rewrite E' in E; try discriminate.
  injection E as <- _. rewrite Hl, Ht.
  destruct (tick_label_enumerate (@fst string five_num) data 1)
    as (Hlt & Hnth).
  split; [|split].
  - change 1 with (Z.of_nat 1). apply enumerate_from_fst.
  - intros i c r Hi.
    replace (Z.of_nat i + 1) with (1 + Z.of_nat i) by lia.
    exact (Hnth i (c, r) Hi).
  - intros t [Hlo|Hhi]; [now apply Hlt|].
    apply tick_label_beyond. lia.
Qed.

(** X15 at the categories "a" and "b". *)
Lemma box_viz_tick_labels_witness :
  exists fig,
    box_viz (F := xfloat) UniViz_init
            [("a"%string,
              {| lw := None; tf := Some (Fin 1); fy := None;
                 sf := Some (Fin 2); uw := None; outliers := Some [] |});
             ("b"%string,
              {| lw := None; tf := Some (Fin 1); fy := None;
                 sf := Some (Fin 2); uw := None; outliers := Some [] |})]
            "col" None (Fin (1 # 4))
    = Ok (fig, set_box UniViz_init) /\
    box_ticks fig = [1; 2] /\
    tick_label (box_tick_labels fig) 2 = Some "b"%string.
Proof.
  eexists. split; [reflexivity|].
  pose proof (@box_viz_tick_labels xfloat exact UniViz_init
                [("a"%string,
                  {| lw := None; tf := Some (Fin 1); fy := None;
                     sf := Some (Fin 2); uw := None; outliers := Some [] |});
                 ("b"%string,
                  {| lw := None; tf := Some (Fin 1); fy := None;
                     sf := Some (Fin 2); uw := None; outliers := Some [] |})]
                "col"%string None (Fin (1 # 4)) _ _ eq_refl) as (T & L & _).
  split; [exact T|].
  exact (L 1%nat "b"%string _ eq_refl).
Defined.

(** X16.  For a finite [box_width] w, every box of the plot is w wide and
    the median and whisker-cap segments of its category run from x - w/2 to
    x + w/2: they are exactly as wide as the box and centred on the
    category's x position. *)
Theorem box_viz_segments_match_box_width
  (self : UniViz) (data : list (string * five_num)) (col_x : string)
  (col_y : option string) (w : Q) fig st :
  box_viz self data col_x col_y (Fin w) = Ok (fig, st) ->
  Forall (fun r =>
            box_w r = Fin w /\
            exists a b,
              box_x0 r = Fin a /\ box_x1 r = Fin b /\
              (b - a == w)%Q /\
              ((a + b) / 2 == inject_Z (box_x r))%Q)
         (box_source fig).
Proof.
  intros E.
  destruct (box_viz_cases self data col_x col_y (Fin w))
    as [(_ & E')|[(_ & _ & E')|[(_ & _ & _ & E')
                               |(_ & _ & _ & fig' & E' & _ & _ & _ & Hg)]]];
    rewrite E' in E; try discriminate.
  injection E as <- _.
  apply (Forall_of_map
           (fun r => (box_x r, box_w r, box_x0 r, box_x1 r)) _
           (fun q => snd (fst (fst q)) = Fin w /\
                     exists a b,
                       snd (fst q) = Fin a /\ snd q = Fin b /\
                       (b - a == w)%Q /\
                       ((a + b) / 2 == inject_Z (fst (fst (fst q))))%Q)
           _ _ Hg).
  intros [x cr]. cbn [fst snd]. split; [reflexivity|].
  exists (Qred (inject_Z x + Qred (- Qred (w / inject_Z 2)))),
         (Qred (inject_Z x + Qred (w / inject_Z 2))).
  split; [reflexivity|]. split; [reflexivity|].
  rewrite !Qred_correct. change (inject_Z 2) with 2%Q. split; field.
Qed.

(** X16 at one category and the default width 1/4. *)
Lemma box_viz_segments_match_box_width_witness :
  exists fig,
    box_viz (F := xfloat) UniViz_init
            [("a"%string,
              {| lw := None; tf := Some (Fin 1); fy := None;
                 sf := Some (Fin 2); uw := None; outliers := Some [] |})]
            "col" None (Fin (1 # 4))
    = Ok (fig, set_box UniViz_init) /\
    Forall (fun r =>
              box_w r = Fin (1 # 4) /\
              exists a b,
                box_x0 r = Fin a /\ box_x1 r = Fin b /\
                (b - a == 1 # 4)%Q /\
                ((a + b) / 2 == inject_Z (box_x r))%Q)
           (box_source fig).
Proof.
  eexists. split; [reflexivity|].
  exact (@box_viz_segments_match_box_width UniViz_init
           [("a"%string,
             {| lw := None; tf := Some (Fin 1); fy := None;
                sf := Some (Fin 2); uw := None; outliers := Some [] |})]
           "col"%string None (1 # 4) _ _ eq_refl).
Defined.

(* ================================================================== *)
(** * Further properties: histogram with density estimate *)
(* ================================================================== *)

Section KdeMore.
Context {F : Type} `{Float64 F}.

Lemma kde_rows_columns (left right freq : list F) :
  List.length left = List.length freq ->
  List.length right = List.length freq ->
  map kde_left (kde_rows left right freq) = left /\
  map kde_right (kde_rows left right freq) = right /\
  map kde_freq (kde_rows left right freq) = freq.
Proof.
  revert left right.
  induction freq as [|f freq IH]; intros [|l left] [|r right];
    simpl; try discriminate; intros Hl Hr.
  - repeat split.
  - destruct (IH left right) as (E1 & E2 & E3); try lia.
    now rewrite E1, E2, E3.
Qed.

Lemma filter_not_nan_idempotent (data : list F) :
  filter (fun v => negb (fisnan v)) (filter (fun v => negb (fisnan v)) data)
  = filter (fun v => negb (fisnan v)) data.
Proof.
  induction data as [|v data IH]; [reflexivity|].
  cbn [filter]. destruct (negb (fisnan v)) eqn:E; [|exact IH].
  cbn [filter]. now rewrite E, IH.
Qed.
End KdeMore.

(** X17.  [hist_kde_viz] sees only the values that are not [nan]: its
    result is the one it gives on the cleaned sample, so two samples with
    the same non-missing values in the same order give the same figure;
    and a sample without any non-missing value never gives a figure,
    whatever numpy and scipy return. *)
Theorem hist_kde_viz_uses_non_missing_values_only
  (F : Type) (FF : Float64 F)
  (np_histogram : list F -> result (list F * list F))
  (np_linspace : F -> F -> Z -> list F)
  (gaussian_kde : list F -> F -> result (list F -> list F))
  (self : UniViz) (bandwidth : F) (col_x : string) :
  (forall data1 data2,
      filter (fun v => negb (fisnan v)) data1
      = filter (fun v => negb (fisnan v)) data2 ->
      hist_kde_viz np_histogram np_linspace gaussian_kde self data1 bandwidth
                   col_x
      = hist_kde_viz np_histogram np_linspace gaussian_kde self data2
                     bandwidth col_x) /\
  (forall data,
      hist_kde_viz np_histogram np_linspace gaussian_kde self data bandwidth
                   col_x
      = hist_kde_viz np_histogram np_linspace gaussian_kde self
                     (filter (fun v => negb (fisnan v)) data) bandwidth
                     col_x) /\
  (forall data,
      forallb fisnan data = true ->
      is_ok (hist_kde_viz np_histogram np_linspace gaussian_kde self data
                          bandwidth col_x) = false).
Proof.
  split; [|split].
  - intros data1 data2 E. unfold hist_kde_viz. now rewrite E.
  - intros data. unfold hist_kde_viz.
    now rewrite filter_not_nan_idempotent.
  - intros data Hall. unfold hist_kde_viz.
    assert (E : filter (fun v => negb (fisnan v)) data = []).
    { induction data as [|v data IH]; [reflexivity|].
      cbn [forallb] in Hall. apply andb_prop in Hall.
      destruct Hall as (Hv & Hall). cbn [filter]. rewrite Hv.
      now apply IH. }
    rewrite E. destruct (np_histogram []); reflexivity.
Qed.

(** X18.  When the cleaned sample has a value, numpy's histogram has one
    edge more than bins and scipy fits a density, [hist_kde_viz] returns:
    the density curve is evaluated at [np.linspace(m, M, 50)], m and M
    being the least and greatest non-missing value of the sample, the bars
    are the histogram's bins between consecutive edges, and both were
    computed from the cleaned sample. *)
Theorem hist_kde_viz_figure
  (np_histogram : list xfloat -> result (list xfloat * list xfloat))
  (np_linspace : xfloat -> xfloat -> Z -> list xfloat)
  (gaussian_kde : list xfloat -> xfloat
                  -> result (list xfloat -> list xfloat))
  (self : UniViz) (data : list xfloat) (bandwidth : xfloat) (col_x : string)
  (freq edges : list xfloat) (pdf : list xfloat -> list xfloat) :
  filter (fun v => negb (xisnan v)) data <> [] ->
  np_histogram (filter (fun v => negb (xisnan v)) data) = Ok (freq, edges) ->
  len edges = len freq + 1 ->
  gaussian_kde (filter (fun v => negb (xisnan v)) data) bandwidth = Ok pdf ->
  exists fig m M,
    hist_kde_viz np_histogram np_linspace gaussian_kde self data bandwidth
                 col_x
    = Ok (fig, set_kde self) /\
    In m data /\ In M data /\
    (forall v, In v data -> xisnan v = false ->
               xleb m v = true /\ xleb v M = true) /\
    kde_line_x fig = np_linspace m M 50 /\
    kde_line_y fig = pdf (np_linspace m M 50) /\
    map kde_freq (kde_source fig) = freq /\
    map kde_left (kde_source fig) = firstn (List.length freq) edges /\
    map kde_right (kde_source fig) = skipn 1 edges.
Proof.
  intros Hne Hh Hlen Hk.
  assert (Hlen' : List.length edges = S (List.length freq))
    by (unfold len in Hlen; lia).
  unfold hist_kde_viz. change fisnan with xisnan.
  set (cleaned := filter (fun v => negb (xisnan v)) data) in *.
  assert (Hclean : Forall (fun v => xisnan v = false) cleaned).
  { apply Forall_forall. intros v Hv. apply filter_In in Hv.
    destruct Hv as (_ & Hv). now apply negb_true_iff in Hv. }
  rewrite Hh. cbn [bind fst snd].
  destruct cleaned as [|x a] eqn:Ec; [contradiction|].
  cbn [np_min np_max bind]. rewrite Hk. cbn [bind].
  destruct (slice_edges edges Hlen') as (E1 & E2 & L1 & L2).
  unfold kde_frame, len. rewrite L1, L2, !Z.eqb_refl. cbn [andb bind].
  destruct (fold_minimum_least Hclean) as (Hmin & Hmin_le).
  destruct (fold_maximum_greatest Hclean) as (Hmax & Hmax_le).
  assert (Hsub : forall v, In v (x :: a) -> In v data).
  { intros v Hv. rewrite <- Ec in Hv. unfold cleaned in Hv.
    now apply filter_In in Hv. }
  assert (Hmem : forall v, In v data -> xisnan v = false -> In v (x :: a)).
  { intros v Hv Hn. rewrite <- Ec. unfold cleaned. apply filter_In.
    split; [exact Hv | now rewrite Hn]. }
  eexists _, (fold_left fminimum a x), (fold_left fmaximum a x).
  split; [reflexivity|].
  cbn [kde_line_x kde_line_y kde_source].
  destruct (kde_rows_columns (firstn (List.length freq) edges)
              (skipn 1 edges) freq) as (C1 & C2 & C3).
  { rewrite length_firstn. lia. }
  { rewrite length_skipn. lia. }
  rewrite E1, E2.
  repeat split; try assumption; try reflexivity.
  - now apply Hsub.
  - now apply Hsub.
  - apply Hmin_le. now apply Hmem.
  - apply Hmax_le. now apply Hmem.
Qed.

(** X18 at the sample [2, nan, 1, 3] with stand-ins for numpy and scipy
    (three edges, two bins, a density that is constant). *)
Lemma hist_kde_viz_figure_witness :
  exists fig m M,
    hist_kde_viz (F := xfloat)
                 (fun _ => Ok ([Fin 1; Fin 2], [Fin 1; Fin 2; Fin 3]))
                 (fun lo hi _ => [lo; hi])
                 (fun _ _ => Ok (map (fun _ => Fin (1 # 2))))
                 UniViz_init [Fin 2; NaN; Fin 1; Fin 3] (Fin 1) "col"
    = Ok (fig, set_kde UniViz_init) /\
    In m [Fin 2; NaN; Fin 1; Fin 3] /\ In M [Fin 2; NaN; Fin 1; Fin 3] /\
    (forall v, In v [Fin 2; NaN; Fin 1; Fin 3] -> xisnan v = false ->
               xleb m v = true /\ xleb v M = true) /\
    kde_line_x fig = [m; M] /\
    kde_line_y fig = [Fin (1 # 2); Fin (1 # 2)] /\
    map kde_freq (kde_source fig) = [Fin 1; Fin 2] /\
    map kde_left (kde_source fig) = [Fin 1; Fin 2] /\
    map kde_right (kde_source fig) = [Fin 2; Fin 3].
Proof.
  apply (@hist_kde_viz_figure
           (fun _ => Ok ([Fin 1; Fin 2], [Fin 1; Fin 2; Fin 3]))
           (fun lo hi _ => [lo; hi])
           (fun _ _ => Ok (map (fun _ => Fin (1 # 2))))
           UniViz_init [Fin 2; NaN; Fin 1; Fin 3] (Fin 1) "col"%string
           [Fin 1; Fin 2] [Fin 1; Fin 2; Fin 3]
           (map (fun _ => Fin (1 # 2)))).
  - discriminate.
  - reflexivity.
  - reflexivity.
  - reflexivity.
Defined.

(* ================================================================== *)
(** * Further properties: the flags over a session *)
(* ================================================================== *)

Section FlagsMore.
Context {F : Type} `{Float64 F}.
Variable np_histogram : list F -> result (list F * list F).
Variable np_linspace : F -> F -> Z -> list F.
Variable gaussian_kde : list F -> F -> result (list F -> list F).

Local Abbreviation run := (run np_histogram np_linspace gaussian_kde).
Local Abbreviation run_all := (run_all np_histogram np_linspace gaussian_kde).

(** Destructs the computations a method binds, one after the other. *)
Ltac split_binds :=
  repeat match goal with
         | |- context [bind ?m _] => destruct m; cbn [bind figure_of outcome]
         | |- context [if ?b then _ else _] =>
             destruct b; cbn [bind figure_of outcome]
         end.

(** No method looks at the flags. *)
Lemma figure_of_any_instance (self self' : UniViz) :
  (forall data col_x bars ascending,
      figure_of (pie_viz (F := F) self data col_x bars ascending)
      = figure_of (pie_viz self' data col_x bars ascending)) /\
  (forall data missing col_x bars ascending,
      figure_of (bar_viz (F := F) self data missing col_x bars ascending)
      = figure_of (bar_viz self' data missing col_x bars ascending)) /\
  (forall data missing orig_df_len show_y_label col_x yscale,
      figure_of (hist_viz (F := F) self data missing orig_df_len show_y_label
                          col_x yscale)
      = figure_of (hist_viz self' data missing orig_df_len show_y_label
                            col_x yscale)) /\
  (forall in_data col_x,
      figure_of (qqnorm_viz (F := F) self in_data col_x)
      = figure_of (qqnorm_viz self' in_data col_x)) /\
  (forall data bandwidth col_x,
      figure_of (hist_kde_viz np_histogram np_linspace gaussian_kde self data
                              bandwidth col_x)
      = figure_of (hist_kde_viz np_histogram np_linspace gaussian_kde self'
                                data bandwidth col_x)) /\
  (forall data col_x col_y box_width,
      figure_of (box_viz (F := F) self data col_x col_y box_width)
      = figure_of (box_viz self' data col_x col_y box_width)).
Proof.
  split; [|split; [|split; [|split; [|split]]]]; intros.
  - reflexivity.
  - unfold bar_viz. split_binds; reflexivity.
  - unfold hist_viz, hist_frame. split_binds; reflexivity.
  - unfold qqnorm_viz. split_binds; reflexivity.
  - unfold hist_kde_viz, kde_frame. split_binds; reflexivity.
  - unfold box_viz. split_binds; reflexivity.
Qed.

Lemma outcome_returns (A : Type) (self : UniViz) (r : result (A * UniViz)) :
  snd (outcome self r) = is_ok (figure_of r).
Proof. now destruct r as [[fig st]|e]. Qed.

(** Whether a call returns does not depend on the instance. *)
Lemma run_returns_any_instance (self self' : UniViz) (c : call) :
  snd (run self c) = snd (run self' c).
Proof.
  destruct (figure_of_any_instance self self')
    as (Hp & Hb & Hh & Hq & Hk & Hx).
  destruct c; cbn [run]; rewrite !outcome_returns;
    f_equal; auto.
Qed.

Lemma run_flag (self : UniViz) (c : call) (f : flag) :
  get_flag f (fst (run self c))
  = get_flag f self || (flag_eqb (flag_of c) f && snd (run self c)).
Proof.
  destruct (run_cases np_histogram np_linspace gaussian_kde self c)
    as [E|E]; rewrite E; cbn [fst snd].
  - rewrite andb_true_r.
    destruct f, (flag_of c); cbn [flag_eqb get_flag set_flag];
      rewrite ?orb_true_r, ?orb_false_r; reflexivity.
  - now rewrite andb_false_r, orb_false_r.
Qed.

(** X20.  After any sequence of calls on one instance, a flag is set
    exactly when it was set before or some call of its chart type in the
    sequence returned; which calls return does not depend on the flags. *)
Theorem flags_after_a_session (calls : list call) (self : UniViz) (f : flag) :
  get_flag f (run_all self calls)
  = get_flag f self
    || existsb (fun c => flag_eqb (flag_of c) f && snd (run UniViz_init c))
               calls.
Proof.
  revert self. induction calls as [|c calls IH]; intros self.
  - cbn [run_all fold_left existsb]. now rewrite orb_false_r.
  - cbn [run_all fold_left existsb].
    fold (run_all (fst (run self c)) calls).
    rewrite IH, run_flag.
    rewrite (run_returns_any_instance self UniViz_init c).
    now rewrite orb_assoc.
Qed.

(** X19.  No method reads the flags: the figure a call returns, or the
    exception it raises, is the same on every instance, whatever charts
    were drawn before. *)
Theorem viz_results_do_not_depend_on_flags (self self' : UniViz) :
  (forall data col_x bars ascending,
      figure_of (pie_viz (F := F) self data col_x bars ascending)
      = figure_of (pie_viz self' data col_x bars ascending)) /\
  (forall data missing col_x bars ascending,
      figure_of (bar_viz (F := F) self data missing col_x bars ascending)
      = figure_of (bar_viz self' data missing col_x bars ascending)) /\
  (forall data missing orig_df_len show_y_label col_x yscale,
      figure_of (hist_viz (F := F) self data missing orig_df_len show_y_label
                          col_x yscale)
      = figure_of (hist_viz self' data missing orig_df_len show_y_label
                            col_x yscale)) /\
  (forall in_data col_x,
      figure_of (qqnorm_viz (F := F) self in_data col_x)
      = figure_of (qqnorm_viz self' in_data col_x)) /\
  (forall data bandwidth col_x,
      figure_of (hist_kde_viz np_histogram np_linspace gaussian_kde self data
                              bandwidth col_x)
      = figure_of (hist_kde_viz np_histogram np_linspace gaussian_kde self'
                                data bandwidth col_x)) /\
  (forall data col_x col_y box_width,
      figure_of (box_viz (F := F) self data col_x col_y box_width)
      = figure_of (box_viz self' data col_x col_y box_width)).
Proof. exact (figure_of_any_instance self self'). Qed.
End FlagsMore.

(* ================================================================== *)
(** * Further properties: how a bar chart call ends *)
(* ================================================================== *)

(** X21.  [bar_viz] returns on every input but two: an empty [missing]
    list is an [IndexError], and a positive missing count with a total of
    zero (counts that cancel it out) a [ZeroDivisionError] from the title.
    A zero total with no missing values is not an error, and neither is an
    empty mapping or a negative [bars]. *)
Theorem bar_viz_outcomes
  (F : Type) (FF : Float64 F) (self : UniViz) (data : list (string * Z))
  (missing : list Z) (col_x : string) (bars : Z) (ascending : bool) :
  match missing with
  | [] =>
      bar_viz self data missing col_x bars ascending = Raise IndexError
  | miss_cnt :: _ =>
      if (miss_cnt >? 0) && (zsum (map snd data) + miss_cnt =? 0)
      then bar_viz self data missing col_x bars ascending
           = Raise ZeroDivisionError
      else exists fig,
          bar_viz self data missing col_x bars ascending
          = Ok (fig, set_barplot self) /\
          len (bar_source fig) = len (slice_to bars data)
  end.
Proof.
  destruct missing as [|miss_cnt rest]; [reflexivity|].
  destruct ((miss_cnt >? 0) && (zsum (map snd data) + miss_cnt =? 0)) eqn:E.
  - apply andb_prop in E. destruct E as (Em & Et).
    apply Z.eqb_eq in Et. unfold bar_viz. cbn [getitem0 bind].
    rewrite Em, Et. reflexivity.
  - assert (Hret : miss_cnt <= 0 \/ zsum (map snd data) + miss_cnt <> 0).
    { apply andb_false_iff in E. destruct E as [E|E].
      - left. rewrite Z.gtb_ltb in E. apply Z.ltb_ge in E. lia.
      - right. now apply Z.eqb_neq. }
    destruct (bar_viz_figure self data rest col_x bars ascending Hret)
      as (fig & Eq & Hsrc & _).
    exists fig. split; [exact Eq|].
    rewrite Hsrc. unfold len, bar_rows, slice_to.
    rewrite length_map, !length_firstn.
    now rewrite (Permutation_length (sorted_by_perm _ _ _)).
Qed.
